(** * Refund-Guard: the policy-augmented analysis pipeline

    A shallow embedding of the refund calculator, the request schema, the
    reasoning-engine client, the result reconciler and the analysis endpoint
    of the two server files ([src/server/server.js] and the later revision
    [src/unnamed/part_001]), and of the refund-percent logic of the React
    client ([src/unnamed/part_000]).

    JavaScript numbers are IEEE 754 binary64 values: they are embedded as
    Rocq's primitive [float], whose operations are the same binary64
    operations.  JavaScript strings are embedded as [string]; one character
    stands for one UTF-16 code unit (the embedding covers code units below
    256).  Objects produced by [JSON.parse] are finite maps from property
    names to values ([gmap string JSON]); the enumeration order of the
    properties is not represented, no property below depends on it. *)

From Stdlib Require Import ZArith Bool Ascii String Floats Lia.
From Stdlib Require Import DecimalString.
From stdpp Require Import base option list gmap strings.

Local Open Scope string_scope.
Local Set Warnings "-register-all,-inexact-float".

(** ** JavaScript values *)

(** The values [JSON.parse] can produce.  [undefined] is not a JSON value:
    a possibly-undefined expression is an [option JSON] with [None] for
    [undefined]. *)
Inductive JSON : Type :=
| JNull
| JBool (b : bool)
| JNum (x : float)
| JStr (s : string)
| JArr (items : list JSON)
| JObj (props : gmap string JSON).

(** Where the schema has narrowed a value to [number | null | undefined]. *)
Inductive OptNum : Type :=
| NumUndefined
| NumNull
| Num (x : float).

Module JS.

(** [ToBoolean] on a number: [NaN], [+0] and [-0] are falsy. *)
Definition truthyNumber (x : float) : bool :=
  negb (PrimFloat.is_nan x || (x =? 0)%float).

(** [ToBoolean]. *)
Definition truthy (v : JSON) : bool :=
  match v with
  | JNull => false
  | JBool b => b
  | JNum x => truthyNumber x
  | JStr s => negb (String.eqb s "")
  | JArr _ | JObj _ => true
  end.

Definition truthyOpt (v : option JSON) : bool :=
  match v with
  | None => false
  | Some v => truthy v
  end.

(** [a || b] on possibly-undefined values. *)
Definition or_else (a : option JSON) (b : JSON) : JSON :=
  match a with
  | Some v => if truthy v then v else b
  | None => b
  end.

(** [a ?? b]: only [null] and [undefined] are replaced. *)
Definition nullish (a : option JSON) (b : JSON) : JSON :=
  match a with
  | None | Some JNull => b
  | Some v => v
  end.

(** [v?.name] for a property name that is neither an array index nor
    [length] nor a member of a built-in prototype ([policy], [candidates],
    [content], [parts], [text], [signals], ...): only an object parsed from
    JSON can have it as an own property. *)
Definition field (v : option JSON) (name : string) : option JSON :=
  match v with
  | Some (JObj props) => props !! name
  | _ => None
  end.

Definition char_at (s : string) (i : nat) : option JSON :=
  match String.get i s with
  | Some c => Some (JStr (String c EmptyString))
  | None => None
  end.

Definition index_key (i : nat) : string :=
  NilZero.string_of_uint (Nat.to_uint i).

(** [v?.[i]]. *)
Definition at_index (v : option JSON) (i : nat) : option JSON :=
  match v with
  | Some (JArr items) => items !! i
  | Some (JStr s) => char_at s i
  | Some (JObj props) => props !! index_key i
  | _ => None
  end.

Fixpoint indexed_from {A} (i : nat) (l : list A) : list (string * A) :=
  match l with
  | [] => []
  | x :: l => (index_key i, x) :: indexed_from (S i) l
  end.

Definition chars (s : string) : list JSON :=
  List.map (fun c => JStr (String c EmptyString)) (list_ascii_of_string s).

(** The own enumerable properties an object spread [{...v}] copies:
    those of an object, the indexed elements of an array, the indexed
    characters of a string, nothing for [null], [undefined], a number or
    a boolean. *)
Definition own_props (v : option JSON) : gmap string JSON :=
  match v with
  | Some (JObj props) => props
  | Some (JArr items) => list_to_map (indexed_from 0 items)
  | Some (JStr s) => list_to_map (indexed_from 0 (chars s))
  | _ => ∅
  end.

(** [ToNumber] on [number | null | undefined]. *)
Definition to_number (v : OptNum) : float :=
  match v with
  | NumUndefined => PrimFloat.nan
  | NumNull => 0%float
  | Num x => x
  end.

Definition truthyOptNum (v : OptNum) : bool :=
  match v with
  | Num x => truthyNumber x
  | _ => false
  end.

(** [v == null]. *)
Definition loosely_null (v : OptNum) : bool :=
  match v with
  | Num _ => false
  | _ => true
  end.

Definition of_OptNum (v : OptNum) : option JSON :=
  match v with
  | NumUndefined => None
  | NumNull => Some JNull
  | Num x => Some (JNum x)
  end.

End JS.

(** ** 4.1 Refund policy calculator

    [computeRefundPercent] has the same text in both server files:
<<
  function computeRefundPercent(total, refunded) {
    if (!total || total <= 0) return null;
    if (refunded == null) return null;
    return (refunded / total) * 100;
  }
>>
    The result [number | null] is an [option float]. *)
Definition computeRefundPercent (total refunded : OptNum) : option float :=
  if negb (JS.truthyOptNum total) || (JS.to_number total <=? 0)%float then None
  else if JS.loosely_null refunded then None
  else Some ((JS.to_number refunded / JS.to_number total) * 100)%float.

(** The request after [AnalyzeSchema.parse]. *)
Record Input : Type := mkInput {
  rawNotes : string;
  issueType : string;
  bookingTotal : OptNum;
  refundedAmount : OptNum;
  encouragedRefundCapPercent : float;
  maxRefundCapPercent : float
}.

(** [refundPercent != null && refundPercent > cap]. *)
Definition exceeds (refundPercent : option float) (cap : float) : bool :=
  match refundPercent with
  | None => false
  | Some p => (cap <? p)%float
  end.

Definition refundPercent (input : Input) : option float :=
  computeRefundPercent (bookingTotal input) (refundedAmount input).

Definition softCapExceeded (input : Input) : bool :=
  exceeds (refundPercent input) (encouragedRefundCapPercent input).

Definition hardCapExceeded (input : Input) : bool :=
  exceeds (refundPercent input) (maxRefundCapPercent input).

(** ** 4.4 Result reconciler ([src/unnamed/part_001], lines 212-223)
<<
  const merged = {
    ...data,
    policy: {
      encouraged_cap_percent: input.encouragedRefundCapPercent,
      max_cap_percent: input.maxRefundCapPercent,
      refund_percent: refundPercent,
      soft_cap_exceeded: softCapExceeded,
      hard_cap_exceeded: hardCapExceeded,
      ...(data?.policy || {}),
    },
  };
>>
    In an object literal a later property replaces an earlier one of the
    same name, so the spread of the engine's policy, which comes last,
    is the left operand of the left-biased union. *)
Definition number_or_null (p : option float) : JSON :=
  match p with
  | None => JNull
  | Some x => JNum x
  end.

Definition local_policy (input : Input) : gmap string JSON :=
  <["hard_cap_exceeded" := JBool (hardCapExceeded input)]>
  (<["soft_cap_exceeded" := JBool (softCapExceeded input)]>
  (<["refund_percent" := number_or_null (refundPercent input)]>
  (<["max_cap_percent" := JNum (maxRefundCapPercent input)]>
  (<["encouraged_cap_percent" := JNum (encouragedRefundCapPercent input)]> ∅)))).

Definition engine_policy (data : JSON) : gmap string JSON :=
  JS.own_props (Some (JS.or_else (JS.field (Some data) "policy") (JObj ∅))).

Definition merged_policy (input : Input) (data : JSON) : gmap string JSON :=
  engine_policy data ∪ local_policy input.

Definition merged (input : Input) (data : JSON) : JSON :=
  JObj (<["policy" := JObj (merged_policy input data)]> (JS.own_props (Some data))).


(** ** Exceptions

    Everything thrown on the analysis path is an instance of [Error]:
    [new Error(text)] of the source itself, the [ZodError] of
    [AnalyzeSchema.parse], the [SyntaxError] of [JSON.parse] and the
    [TypeError] of a rejected [fetch] or of calling a missing method. *)
Inductive Exn : Type :=
| Error (message : string)
| ZodError (issues : list string)
| SyntaxError (text : string)
| TypeError (what : string).

(** ** 4.5 Request validation ([AnalyzeSchema], the same in both files)
<<
  const AnalyzeSchema = z.object({
    rawNotes: z.string().min(10),
    issueType: z.string().min(1),
    bookingTotal: z.number().nullable().optional(),
    refundedAmount: z.number().nullable().optional(),
    encouragedRefundCapPercent: z.number().default(15),
    maxRefundCapPercent: z.number().default(20),
  });
>>
    A field schema maps the (possibly undefined) property to its parsed
    value, or to [None] when zod raises an issue for it. *)
Module z.

Definition string_min (n : nat) (v : option JSON) : option string :=
  match v with
  | Some (JStr s) => if (n <=? String.length s)%nat then Some s else None
  | _ => None
  end.

(** [z.number()] accepts a value of type number other than [NaN] (zod 3;
    from zod 4 on it rejects the two infinities as well, which [JSON.parse]
    gives only for a literal beyond the binary64 range). *)
Definition number (v : option JSON) : option float :=
  match v with
  | Some (JNum x) => if PrimFloat.is_nan x then None else Some x
  | _ => None
  end.

Definition number_nullable_optional (v : option JSON) : option OptNum :=
  match v with
  | None => Some NumUndefined
  | Some JNull => Some NumNull
  | _ => option_map Num (number v)
  end.

(** [.default(d)] replaces [undefined] only. *)
Definition number_default (d : float) (v : option JSON) : option float :=
  match v with
  | None => Some d
  | _ => number v
  end.

(** The issue of one key of the object schema, by its path. *)
Definition issue {A} (path : string) (r : option A) : list string :=
  match r with
  | Some _ => []
  | None => [path]
  end.

End z.

Definition AnalyzeSchema_parse (body : option JSON) : Exn + Input :=
  match body with
  | Some (JObj props) =>
      let notes := z.string_min 10 (props !! "rawNotes") in
      let issue := z.string_min 1 (props !! "issueType") in
      let total := z.number_nullable_optional (props !! "bookingTotal") in
      let refunded := z.number_nullable_optional (props !! "refundedAmount") in
      let encouraged := z.number_default 15 (props !! "encouragedRefundCapPercent") in
      let maxcap := z.number_default 20 (props !! "maxRefundCapPercent") in
      match notes, issue, total, refunded, encouraged, maxcap with
      | Some n, Some i, Some t, Some r, Some e, Some m =>
          inr (mkInput n i t r e m)
      | _, _, _, _, _, _ =>
          inl (ZodError (z.issue "rawNotes" notes ++ z.issue "issueType" issue
                         ++ z.issue "bookingTotal" total
                         ++ z.issue "refundedAmount" refunded
                         ++ z.issue "encouragedRefundCapPercent" encouraged
                         ++ z.issue "maxRefundCapPercent" maxcap))
      end
  | _ => inl (ZodError [""])
  end.

(** ** String and array methods used by the engine client *)
Module Str.

(** First occurrence of [needle] in [s], counted from [i]. *)
Fixpoint find_first (needle s : string) (i : nat) : option nat :=
  if String.prefix needle s then Some i
  else match s with
       | EmptyString => None
       | String _ s' => find_first needle s' (S i)
       end.

(** Last occurrence of [needle] in [s], counted from [i]. *)
Fixpoint find_last (needle s : string) (i : nat) : option nat :=
  match s with
  | EmptyString => if String.prefix needle s then Some i else None
  | String _ s' =>
      match find_last needle s' (S i) with
      | Some j => Some j
      | None => if String.prefix needle s then Some i else None
      end
  end.

Definition or_minus_one (r : option nat) : Z :=
  match r with
  | Some i => Z.of_nat i
  | None => (-1)%Z
  end.

(** [s.indexOf(needle)] and [s.lastIndexOf(needle)]. *)
Definition indexOf (s needle : string) : Z := or_minus_one (find_first needle s 0).
Definition lastIndexOf (s needle : string) : Z := or_minus_one (find_last needle s 0).

(** The relative index of [slice]: a negative one counts from the end,
    and the result is clamped to [0 .. len]. *)
Definition relative (len : nat) (i : Z) : nat :=
  if (i <? 0)%Z then Z.to_nat (Z.max 0 (Z.of_nat len + i))
  else Nat.min (Z.to_nat i) len.

(** [s.slice(from, to)]. *)
Definition slice (s : string) (from to : Z) : string :=
  let a := relative (String.length s) from in
  let b := relative (String.length s) to in
  String.substring a (b - a) s.

End Str.

Module Arr.

(** [x === "needle"] for a JSON value [x]. *)
Definition is_string (needle : string) (x : JSON) : bool :=
  match x with
  | JStr s => String.eqb s needle
  | _ => false
  end.

Fixpoint find_first (needle : string) (l : list JSON) (i : nat) : option nat :=
  match l with
  | [] => None
  | x :: l' => if is_string needle x then Some i else find_first needle l' (S i)
  end.

Fixpoint find_last (needle : string) (l : list JSON) (i : nat) : option nat :=
  match l with
  | [] => None
  | x :: l' =>
      match find_last needle l' (S i) with
      | Some j => Some j
      | None => if is_string needle x then Some i else None
      end
  end.

(** [Array.prototype.indexOf], [lastIndexOf] and [slice]. *)
Definition indexOf (l : list JSON) (needle : string) : Z :=
  Str.or_minus_one (find_first needle l 0).
Definition lastIndexOf (l : list JSON) (needle : string) : Z :=
  Str.or_minus_one (find_last needle l 0).
Definition slice (l : list JSON) (from to : Z) : list JSON :=
  let a := Str.relative (length l) from in
  let b := Str.relative (length l) to in
  take (b - a) (drop a l).

End Arr.

(** ** Conversions between decimal text and binary64 numbers

    [Number(text)], [JSON.parse], [Number.prototype.toString] and
    [Number.prototype.toFixed] are built-ins of the language, not code of
    the repository.  They are embedded here after ECMA-262 so that the
    functions of the repository can be evaluated on concrete inputs. *)
Module Dec.

(** The binary64 value nearest to [num / den] (ties to even), for
    [0 <= num] and [0 < den]; the division is the one of [SFdiv]. *)
Definition of_ratio (neg : bool) (num den : Z) : float :=
  if (num =? 0)%Z then (if neg then neg_zero else zero)
  else
    let '(q, e, l) := SFdiv_core_binary prec emax num 0 den 0 in
    SF2Prim (binary_round_aux prec emax neg q e l).

(** The binary64 value nearest to [digits * 10 ^ exp10]. *)
Definition of_decimal (neg : bool) (digits exp10 : Z) : float :=
  if (0 <=? exp10)%Z then of_ratio neg (digits * 10 ^ exp10) 1
  else of_ratio neg digits (10 ^ (- exp10)).

(** The exact value [num / den] of a finite non-zero number, with its
    sign. *)
Definition exact (x : float) : option (bool * Z * Z) :=
  match Prim2SF x with
  | S754_finite s m e =>
      if (0 <=? e)%Z then Some (s, Z.pos m * 2 ^ e, 1)%Z
      else Some (s, Z.pos m, 2 ^ (- e))%Z
  | _ => None
  end.

Definition digit_value (c : ascii) : option Z :=
  let n := nat_of_ascii c in
  if (48 <=? n)%nat && (n <=? 57)%nat then Some (Z.of_nat (n - 48)) else None.

Definition is_digit (c : ascii) : bool :=
  match digit_value c with Some _ => true | None => false end.

(** The longest prefix of decimal digits, and the rest. *)
Fixpoint span_digits (l : list ascii) : list ascii * list ascii :=
  match l with
  | c :: l' =>
      if is_digit c then let '(d, r) := span_digits l' in (c :: d, r)
      else ([], l)
  | [] => ([], [])
  end.

Definition digits_value (base : Z) (value : ascii -> option Z) (l : list ascii) : Z :=
  fold_left (fun acc c => acc * base + default 0 (value c))%Z l 0%Z.

Definition print_nat (n : Z) : string :=
  NilZero.string_of_uint (N.to_uint (Z.to_N n)).

Definition zeros (n : Z) : string :=
  string_of_list_ascii (repeat "0"%char (Z.to_nat n)).

(** The position [n] of the decimal point: [10^(n-1) <= num/den < 10^n]. *)
Fixpoint magnitude_up (fuel : nat) (num den : Z) (n : Z) : Z :=
  match fuel with
  | O => n
  | S fuel => if (num <? den * 10 ^ n)%Z then n else magnitude_up fuel num den (n + 1)
  end.

Fixpoint magnitude_down (fuel : nat) (num den : Z) (n : Z) : Z :=
  match fuel with
  | O => n
  | S fuel =>
      if (den <=? num * 10 ^ (1 - n))%Z then n else magnitude_down fuel num den (n - 1)
  end.

Definition magnitude (num den : Z) : Z :=
  if (den <=? num)%Z then magnitude_up (S (Z.to_nat (Z.log2 num))) num den 1
  else magnitude_down (S (Z.to_nat (Z.log2 den))) num den 0.

(** The integer part and the remainder of [num / den / 10^p]. *)
Definition scaled_div (num den p : Z) : Z * Z * Z :=
  let N := if (p <? 0)%Z then (num * 10 ^ (- p))%Z else num in
  let D := if (p <? 0)%Z then den else (den * 10 ^ p)%Z in
  (N / D, N mod D, D)%Z.

(** The [k]-digit integer [s] with [s * 10^(n-k)] converting back to
    [x], if there is one; of two, the one nearer to [x] (the even one
    when both are as near). *)
Definition shortest_at (x : float) (num den n k : Z) : option Z :=
  let p := (n - k)%Z in
  let '(lo, r, D) := scaled_div num den p in
  let hi := (lo + 1)%Z in
  let ok s := (of_decimal false s p =? x)%float in
  match ok lo, ok hi with
  | true, true =>
      match (2 * r ?= D)%Z with
      | Lt => Some lo
      | Gt => Some hi
      | Eq => Some (if Z.even lo then lo else hi)
      end
  | true, false => Some lo
  | false, true => Some hi
  | false, false => None
  end.

Fixpoint shortest (fuel : nat) (x : float) (num den n k : Z) : Z * Z :=
  match fuel with
  | O => (0, k)%Z
  | S fuel =>
      match shortest_at x num den n k with
      | Some s => (s, k)
      | None => shortest fuel x num den n (k + 1)
      end
  end.

(** [Number::toString(x)] in radix 10 for [x] finite and positive, from
    the digits [s] (there are [k] of them) and the position [n] of the
    decimal point. *)
Definition layout (s k n : Z) : string :=
  let d := print_nat s in
  let exponent :=
    (if (0 <=? n - 1)%Z then "e+" else "e-") ++ print_nat (Z.abs (n - 1)) in
  if (k <=? n)%Z && (n <=? 21)%Z then d ++ zeros (n - k)
  else if (0 <? n)%Z && (n <=? 21)%Z then
    String.substring 0 (Z.to_nat n) d ++ "."
    ++ String.substring (Z.to_nat n) (Z.to_nat (k - n)) d
  else if (-6 <? n)%Z && (n <=? 0)%Z then "0." ++ zeros (- n) ++ d
  else if (k =? 1)%Z then d ++ exponent
  else String.substring 0 1 d ++ "."
       ++ String.substring 1 (Z.to_nat (k - 1)) d ++ exponent.

Definition toString (x : float) : string :=
  if PrimFloat.is_nan x then "NaN"
  else match exact x with
       | None => if (x =? 0)%float then "0"
                 else if (x <? 0)%float then "-Infinity" else "Infinity"
       | Some (neg, num, den) =>
           let n := magnitude num den in
           let '(s, k) := shortest 17 (abs x) num den n 1 in
           let '(s, k, n) :=
             if (s =? 10 ^ k)%Z then (s / 10 ^ k, 1, n + 1)%Z else (s, k, n) in
           (if neg then "-" else "") ++ layout s k n
       end.

(** [x.toFixed(2)]: the integer [n] nearest to [x * 100] (the larger of
    two as near), printed with two fraction digits. *)
Definition toFixed2 (x : float) : string :=
  match exact x with
  | None => if (x =? 0)%float then "0.00" else toString x
  | Some (neg, num, den) =>
      if (1e21 <=? abs x)%float then toString x
      else
        let n := ((2 * 100 * num + den) / (2 * den))%Z in
        let d := print_nat n in
        let d := zeros (3 - Z.of_nat (String.length d)) ++ d in
        let k := String.length d in
        (if neg then "-" else "")
        ++ String.substring 0 (k - 2) d ++ "." ++ String.substring (k - 2) 2 d
  end.

End Dec.

(** [Number(text)] (StringToNumber of ECMA-262). *)
Module StringToNumber.

Local Open Scope char_scope.

(** White space and line terminators among the code units below 256. *)
Definition is_space (c : ascii) : bool :=
  let n := nat_of_ascii c in
  ((9 <=? n)%nat && (n <=? 13)%nat) || (n =? 32)%nat || (n =? 160)%nat.

Fixpoint drop_spaces (l : list ascii) : list ascii :=
  match l with
  | c :: l' => if is_space c then drop_spaces l' else l
  | [] => []
  end.

Definition trim (l : list ascii) : list ascii :=
  rev (drop_spaces (rev (drop_spaces l))).

(** [e] or [E], an optional sign and at least one digit, up to the end. *)
Definition exponent (l : list ascii) : option Z :=
  match l with
  | [] => Some 0%Z
  | c :: l' =>
      if Ascii.eqb c "e" || Ascii.eqb c "E" then
        let '(neg, l'') :=
          match l' with
          | "-" :: r => (true, r)
          | "+" :: r => (false, r)
          | _ => (false, l')
          end in
        match Dec.span_digits l'' with
        | ((_ :: _) as d, []) =>
            let e := Dec.digits_value 10 Dec.digit_value d in
            Some (if neg then (- e)%Z else e)
        | _ => None
        end
      else None
  end.

(** StrUnsignedDecimalLiteral other than [Infinity]. *)
Definition unsigned_decimal (neg : bool) (l : list ascii) : option float :=
  let '(int, r) := Dec.span_digits l in
  let '(frac, r) :=
    match r with
    | "." :: r' => Dec.span_digits r'
    | _ => ([], r)
    end in
  match (int ++ frac)%list with
  | [] => None
  | digits =>
      match exponent r with
      | Some e =>
          Some (Dec.of_decimal neg (Dec.digits_value 10 Dec.digit_value digits)
                               (e - Z.of_nat (length frac)))
      | None => None
      end
  end.

Definition list_eqb (a b : list ascii) : bool :=
  String.eqb (string_of_list_ascii a) (string_of_list_ascii b).

Definition infinity_text : list ascii := list_ascii_of_string "Infinity".

Definition signed_decimal (l : list ascii) : option float :=
  let '(neg, r) :=
    match l with
    | "-" :: r => (true, r)
    | "+" :: r => (false, r)
    | _ => (false, l)
    end in
  if list_eqb r infinity_text then Some (if neg then neg_infinity else infinity)
  else unsigned_decimal neg r.

Definition hex_value (c : ascii) : option Z :=
  let n := nat_of_ascii c in
  if (48 <=? n)%nat && (n <=? 57)%nat then Some (Z.of_nat (n - 48))
  else if (65 <=? n)%nat && (n <=? 70)%nat then Some (Z.of_nat (n - 55))
  else if (97 <=? n)%nat && (n <=? 102)%nat then Some (Z.of_nat (n - 87))
  else None.

Definition below (base : Z) (value : ascii -> option Z) (c : ascii) : option Z :=
  match value c with
  | Some d => if (d <? base)%Z then Some d else None
  | None => None
  end.

(** The digits of a [0x], [0o] or [0b] literal. *)
Definition radix_digits (base : Z) (l : list ascii) : option float :=
  let value := below base hex_value in
  match l with
  | [] => None
  | _ => if forallb (fun c => bool_decide (is_Some (value c))) l
         then Some (Dec.of_decimal false (Dec.digits_value base value l) 0)
         else None
  end.

Definition non_decimal (l : list ascii) : option float :=
  match l with
  | "0" :: c :: r =>
      if Ascii.eqb c "x" || Ascii.eqb c "X" then radix_digits 16 r
      else if Ascii.eqb c "o" || Ascii.eqb c "O" then radix_digits 8 r
      else if Ascii.eqb c "b" || Ascii.eqb c "B" then radix_digits 2 r
      else None
  | _ => None
  end.

(** [Number(text)]: blank text is [+0], unreadable text is [NaN]. *)
Definition Number (text : string) : float :=
  match trim (list_ascii_of_string text) with
  | [] => 0%float
  | l =>
      match non_decimal l with
      | Some x => x
      | None => default PrimFloat.nan (signed_decimal l)
      end
  end.

End StringToNumber.

(** [ToString] on a JSON value (the conversion [JSON.parse] applies to its
    argument). *)
Fixpoint ToString (v : JSON) : string :=
  match v with
  | JNull => "null"
  | JBool true => "true"
  | JBool false => "false"
  | JNum x => Dec.toString x
  | JStr s => s
  | JArr items =>
      let element v := match v with JNull => "" | _ => ToString v end in
      match items with
      | [] => ""
      | v :: rest =>
          fold_left (fun acc v => acc ++ "," ++ element v) rest (element v)
      end
  | JObj _ => "[object Object]"
  end.

(** The JSON grammar of ECMA-404, as [JSON.parse] reads it. *)
Module JSONText.

Local Open Scope char_scope.

Definition quote : ascii := ascii_of_nat 34.
Definition backslash : ascii := ascii_of_nat 92.

Definition is_ws (c : ascii) : bool :=
  let n := nat_of_ascii c in
  (n =? 32)%nat || (n =? 9)%nat || (n =? 10)%nat || (n =? 13)%nat.

Fixpoint skip_ws (l : list ascii) : list ascii :=
  match l with
  | c :: l' => if is_ws c then skip_ws l' else l
  | [] => []
  end.

(** [l] without the prefix [word]. *)
Fixpoint literal (word l : list ascii) : option (list ascii) :=
  match word, l with
  | [], _ => Some l
  | w :: word', c :: l' => if Ascii.eqb w c then literal word' l' else None
  | _ :: _, [] => None
  end.

(** The four hexadecimal digits of a [\u] escape.  Only a code unit below
    256 has a character in the embedding: an escape of a larger code unit,
    which [JSON.parse] reads as that code unit, has no image here, and the
    reader gives no value for a text that has one. *)
Definition unicode_escape (l : list ascii) : option (ascii * list ascii) :=
  match l with
  | a :: b :: c :: d :: r =>
      match StringToNumber.hex_value a, StringToNumber.hex_value b,
            StringToNumber.hex_value c, StringToNumber.hex_value d with
      | Some a, Some b, Some c, Some d =>
          let n := (((a * 16 + b) * 16 + c) * 16 + d)%Z in
          if (n <? 256)%Z then Some (ascii_of_nat (Z.to_nat n), r) else None
      | _, _, _, _ => None
      end
  | _ => None
  end.

(** The characters of a string up to its closing quote. *)
Fixpoint string_body (fuel : nat) (l : list ascii) (acc : list ascii)
  : option (string * list ascii) :=
  match fuel with
  | O => None
  | S fuel =>
      match l with
      | [] => None
      | c :: r =>
          if Ascii.eqb c quote then Some (string_of_list_ascii (rev acc), r)
          else if Ascii.eqb c backslash then
            match r with
            | e :: r' =>
                let continue c := string_body fuel r' (c :: acc) in
                if Ascii.eqb e quote then continue quote
                else if Ascii.eqb e backslash then continue backslash
                else if Ascii.eqb e "/" then continue "/"
                else if Ascii.eqb e "b" then continue (ascii_of_nat 8)
                else if Ascii.eqb e "f" then continue (ascii_of_nat 12)
                else if Ascii.eqb e "n" then continue (ascii_of_nat 10)
                else if Ascii.eqb e "r" then continue (ascii_of_nat 13)
                else if Ascii.eqb e "t" then continue (ascii_of_nat 9)
                else if Ascii.eqb e "u" then
                  match unicode_escape r' with
                  | Some (c, r'') => string_body fuel r'' (c :: acc)
                  | None => None
                  end
                else None
            | [] => None
            end
          else if (nat_of_ascii c <? 32)%nat then None
          else string_body fuel r (c :: acc)
      end
  end.

(** A number: an optional minus sign, an integer part without a leading
    zero (or the single digit 0), an optional fraction of at least one
    digit, an optional exponent of at least one digit. *)
Definition number (l : list ascii) : option (float * list ascii) :=
  let '(neg, l) := match l with "-" :: r => (true, r) | _ => (false, l) end in
  let '(int, r) := Dec.span_digits l in
  let int_ok :=
    match int with
    | [] => false
    | "0" :: _ :: _ => false
    | _ => true
    end in
  let frac :=
    match r with
    | "." :: r' =>
        match Dec.span_digits r' with
        | ([], _) => None
        | (f, r'') => Some (f, r'')
        end
    | _ => Some ([], r)
    end in
  match int_ok, frac with
  | true, Some (f, r) =>
      let exp :=
        match r with
        | c :: r' =>
            if Ascii.eqb c "e" || Ascii.eqb c "E" then
              let '(eneg, r'') :=
                match r' with
                | "-" :: t => (true, t)
                | "+" :: t => (false, t)
                | _ => (false, r')
                end in
              match Dec.span_digits r'' with
              | ([], _) => None
              | (d, t) =>
                  let e := Dec.digits_value 10 Dec.digit_value d in
                  Some (if eneg then (- e)%Z else e, t)
              end
            else Some (0%Z, r)
        | [] => Some (0%Z, r)
        end in
      match exp with
      | Some (e, t) =>
          Some (Dec.of_decimal neg
                  (Dec.digits_value 10 Dec.digit_value (int ++ f)%list)
                  (e - Z.of_nat (length f)), t)
      | None => None
      end
  | _, _ => None
  end.

Definition null_word : list ascii := list_ascii_of_string "null".
Definition true_word : list ascii := list_ascii_of_string "true".
Definition false_word : list ascii := list_ascii_of_string "false".

Fixpoint value (fuel : nat) (l : list ascii) : option (JSON * list ascii) :=
  match fuel with
  | O => None
  | S fuel =>
      match skip_ws l with
      | [] => None
      | c :: r =>
          if Ascii.eqb c "{" then
            match skip_ws r with
            | "}" :: r' => Some (JObj ∅, r')
            | _ => members fuel r ∅
            end
          else if Ascii.eqb c "[" then
            match skip_ws r with
            | "]" :: r' => Some (JArr [], r')
            | _ => elements fuel r []
            end
          else if Ascii.eqb c quote then
            match string_body (S (length r)) r [] with
            | Some (s, r') => Some (JStr s, r')
            | None => None
            end
          else if Ascii.eqb c "n" then option_map (pair JNull) (literal null_word (c :: r))
          else if Ascii.eqb c "t" then
            option_map (pair (JBool true)) (literal true_word (c :: r))
          else if Ascii.eqb c "f" then
            option_map (pair (JBool false)) (literal false_word (c :: r))
          else
            match number (c :: r) with
            | Some (x, r') => Some (JNum x, r')
            | None => None
            end
      end
  end
with elements (fuel : nat) (l : list ascii) (acc : list JSON)
  : option (JSON * list ascii) :=
  match fuel with
  | O => None
  | S fuel =>
      match value fuel l with
      | Some (v, r) =>
          match skip_ws r with
          | "," :: r' => elements fuel r' (v :: acc)
          | "]" :: r' => Some (JArr (rev (v :: acc)), r')
          | _ => None
          end
      | None => None
      end
  end
with members (fuel : nat) (l : list ascii) (acc : gmap string JSON)
  : option (JSON * list ascii) :=
  match fuel with
  | O => None
  | S fuel =>
      match skip_ws l with
      | c :: r =>
          if Ascii.eqb c quote then
            match string_body (S (length r)) r [] with
            | Some (k, r') =>
                match skip_ws r' with
                | ":" :: r'' =>
                    match value fuel r'' with
                    | Some (v, t) =>
                        match skip_ws t with
                        | "," :: t' => members fuel t' (<[k := v]> acc)
                        | "}" :: t' => Some (JObj (<[k := v]> acc), t')
                        | _ => None
                        end
                    | None => None
                    end
                | _ => None
                end
            | None => None
            end
          else None
      | [] => None
      end
  end.

(** The whole text is one JSON value, white space around it allowed. *)
Definition parse (text : string) : option JSON :=
  let l := list_ascii_of_string text in
  match value (2 * length l + 2) l with
  | Some (v, r) =>
      match skip_ws r with
      | [] => Some v
      | _ => None
      end
  | None => None
  end.

(** A text written with apostrophes in place of double quotes. *)
Definition quoted (text : string) : string :=
  string_of_list_ascii
    (List.map (fun c => if Ascii.eqb c "'" then quote else c)
              (list_ascii_of_string text)).

End JSONText.

(** [JSON.parse(v)] as ECMA-262 defines it: the argument is converted to a
    string and read; a text that is not JSON throws a [SyntaxError].

    Its domain is the texts of the embedding whose [\u] escapes denote code
    units below 256.  On a text with an escape of a larger code unit
    [JSON.parse] returns a string that the embedding cannot hold, and the
    [SyntaxError] given here is not its answer.  The theorems about the
    server files take [JSON.parse] as a parameter and hold for any such
    function; [ES_JSON_parse] is applied to the texts of the examples only,
    none of which has an escape. *)
Definition ES_JSON_parse (v : JSON) : Exn + JSON :=
  let text := ToString v in
  match JSONText.parse text with
  | Some j => inr j
  | None => inl (SyntaxError text)
  end.

(** ** Computations that throw and call the engine

    A computation returns its value or the exception it throws, together
    with the engine requests it has sent (the prompts, in order). *)
Definition M (A : Type) : Type := (Exn + A) * list string.

Definition ret {A} (a : A) : M A := (inr a, []).
Definition throw {A} (e : Exn) : M A := (inl e, []).

Definition bind {A B} (m : M A) (f : A -> M B) : M B :=
  match m with
  | (inl e, sent) => (inl e, sent)
  | (inr a, sent) => let '(r, sent') := f a in (r, (sent ++ sent')%list)
  end.

Definition lift {A} (r : Exn + A) : M A := (r, []).

Notation "'do' x <- m ; k" := (bind m (fun x => k))
  (at level 10, x pattern, m at level 100, k at level 200).

(** The outcome of [await fetch(...)] followed by [await resp.text()]:
    the promise is rejected, or there is a response with its [ok] flag
    and its body. *)
Inductive FetchResult : Type :=
| Rejected (e : Exn)
| Response (ok : bool) (raw : string).

(** The answer of the route: the status ([res.status(...)], 200 unless
    set) and the value given to [res.json(...)]. *)
Record HttpResponse : Type := mkResponse {
  status : nat;
  body : JSON
}.

(** [modelText.indexOf("{")], [modelText.lastIndexOf("}")], the guard and
    [modelText.slice(start, end + 1)] of the [catch] block of
    [src/server/server.js]; a string and an array have these methods, any
    other value has no [indexOf] to call. *)
Definition brace_span (modelText : JSON) : Exn + JSON :=
  match modelText with
  | JStr s =>
      let start := Str.indexOf s "{" in
      let end_ := Str.lastIndexOf s "}" in
      if (start =? -1)%Z || (end_ =? -1)%Z || (end_ <=? start)%Z
      then inl (Error "Model did not return JSON")
      else inr (JStr (Str.slice s start (end_ + 1)))
  | JArr l =>
      let start := Arr.indexOf l "{" in
      let end_ := Arr.lastIndexOf l "}" in
      if (start =? -1)%Z || (end_ =? -1)%Z || (end_ <=? start)%Z
      then inl (Error "Model did not return JSON")
      else inr (JArr (Arr.slice l start (end_ + 1)))
  | _ => inl (TypeError "modelText.indexOf is not a function")
  end.

(** [json?.candidates?.[0]?.content?.parts?.[0]?.text ?? ""]. *)
Definition modelText (json : JSON) : JSON :=
  JS.nullish
    (JS.field
       (JS.at_index
          (JS.field
             (JS.field (JS.at_index (JS.field (Some json) "candidates") 0) "content")
             "parts")
          0)
       "text")
    (JStr "").

Section Engine.

(** The reasoning engine: what the request carrying a given prompt is
    answered with. *)
Variable fetch : string -> FetchResult.

(** [JSON.parse]. *)
Variable JSON_parse : JSON -> Exn + JSON.

(** The [message] of an exception that a library or the JavaScript
    engine throws ([ZodError], [SyntaxError], [TypeError]). *)
Variable library_message : Exn -> string.

Definition message (e : Exn) : string :=
  match e with
  | Error m => m
  | _ => library_message e
  end.

(** The part of [geminiGenerateJson] both files share: the request, the
    [resp.ok] check, the parse of the transport body and the extraction
    of the engine's text. *)
Definition generateText (prompt : string) : M JSON :=
  do (ok, raw) <- (match fetch prompt with
                   | Rejected e => inl e
                   | Response ok raw => inr (ok, raw)
                   end, [prompt]);
  if negb ok then throw (Error raw)
  else
    do json <- lift (JSON_parse (JStr raw));
    let text := modelText json in
    if negb (JS.truthy text) then throw (Error "No model text returned")
    else ret text.

(** [catch (err) { ... res.status(400).json({ error: msg }) }] around a
    [try] block that ends in [res.json(result)]. *)
Definition respond (attempt : M JSON) : HttpResponse * list string :=
  match attempt with
  | (inr result, sent) => (mkResponse 200 result, sent)
  | (inl err, sent) =>
      (mkResponse 400 (JObj {["error" := JStr (message err)]}), sent)
  end.

End Engine.

(** ** [src/server/server.js] *)
Module ServerJs.
Section Server.

Variable fetch : string -> FetchResult.
Variable JSON_parse : JSON -> Exn + JSON.

(** [buildPrompt]: the instruction text is a pure function of the
    validated request; no property below depends on its wording. *)
Variable buildPrompt : Input -> string.
Variable library_message : Exn -> string.

(** Lines 135-145: the strict parse and, in its [catch], the parse of
    the span from the first opening to the last closing brace. *)
Definition parseModelText (text : JSON) : Exn + JSON :=
  match JSON_parse text with
  | inr v => inr v
  | inl _ =>
      match brace_span text with
      | inl e => inl e
      | inr span => JSON_parse span
      end
  end.

Definition geminiGenerateJson (prompt : string) : M JSON :=
  do text <- generateText fetch JSON_parse prompt;
  lift (parseModelText text).

Definition analyze_try (body : option JSON) : M JSON :=
  do input <- lift (AnalyzeSchema_parse body);
  do data <- geminiGenerateJson (buildPrompt input);
  ret data.

(** [app.post("/api/analyze", ...)]. *)
Definition analyze (body : option JSON) : HttpResponse * list string :=
  respond library_message (analyze_try body).

End Server.
End ServerJs.

(** ** [src/unnamed/part_001] *)
Module Part001.
Section Server.

Variable fetch : string -> FetchResult.
Variable JSON_parse : JSON -> Exn + JSON.
Variable buildPrompt : Input -> string.
Variable library_message : Exn -> string.

(** Line 180: [return JSON.parse(modelText)]. *)
Definition parseModelText (text : JSON) : Exn + JSON :=
  JSON_parse text.

Definition geminiGenerateJson (prompt : string) : M JSON :=
  do text <- generateText fetch JSON_parse prompt;
  lift (parseModelText text).

Definition analyze_try (body : option JSON) : M JSON :=
  do input <- lift (AnalyzeSchema_parse body);
  do data <- geminiGenerateJson (buildPrompt input);
  ret (merged input data).

(** [app.post("/api/analyze", ...)]. *)
Definition analyze (body : option JSON) : HttpResponse * list string :=
  respond library_message (analyze_try body).

End Server.
End Part001.

(** ** The request on the wire

    The client sends [JSON.stringify(payload)] and [express.json()] hands
    [JSON.parse] of that text to the route.  [JSON.stringify] writes a
    number that is not finite as [null] and [-0] as [0]; every other number
    is written as [Number::toString], which [JSON.parse] reads back as the
    same number (ECMA-262, Number::toString, note 2).  Strings, booleans,
    [null], the elements of an array and the properties of an object come
    back as they were. *)
Definition wire_number (x : float) : JSON :=
  if PrimFloat.is_finite x then JNum (if (x =? 0)%float then 0%float else x)
  else JNull.

Fixpoint wire (v : JSON) : JSON :=
  match v with
  | JNum x => wire_number x
  | JArr items => JArr (List.map wire items)
  | JObj props => JObj (wire <$> props)
  | _ => v
  end.

(** ** 4.6 Client analysis workflow ([src/unnamed/part_000]) *)
Module App.

(** The component state that the analysis reads. *)
Record State : Type := mkState {
  rawNotes : string;
  issueType : string;
  bookingTotal : string;
  refundedAmount : string;
  agentEmail : string
}.

(** [toNumber]: [Number.isFinite(n) ? n : null]. *)
Definition toNumber (value : string) : OptNum :=
  let n := StringToNumber.Number value in
  if PrimFloat.is_finite n then Num n else NumNull.

(** The [refundPercent] memo:
<<
  const total = toNumber(bookingTotal);
  const refunded = toNumber(refundedAmount);
  if (!total || total <= 0 || refunded == null) return null;
  return (refunded / total) * 100;
>> *)
Definition refundPercent (st : State) : option float :=
  let total := toNumber (bookingTotal st) in
  let refunded := toNumber (refundedAmount st) in
  if negb (JS.truthyOptNum total) || (JS.to_number total <=? 0)%float
     || JS.loosely_null refunded
  then None
  else Some ((JS.to_number refunded / JS.to_number total) * 100)%float.

(** The text after "Refund %:"; [None] stands for the dash shown when
    there is no percentage. *)
Definition refundLabel (st : State) : option string :=
  match refundPercent st with
  | None => None
  | Some p => Some (Dec.toFixed2 p ++ "%")
  end.

(** [text ? Number(text) : null]. *)
Definition number_or_null (text : string) : JSON :=
  if negb (String.eqb text "") then JNum (StringToNumber.Number text) else JNull.

(** The [payload] of [handleAnalyze], and the request body the server
    receives for it. *)
Definition payload (st : State) : JSON :=
  JObj (<["maxRefundCapPercent" := JNum 20]>
       (<["encouragedRefundCapPercent" := JNum 15]>
       (<["refundedAmount" := number_or_null (refundedAmount st)]>
       (<["bookingTotal" := number_or_null (bookingTotal st)]>
       (<["issueType" := JStr (issueType st)]>
       (<["rawNotes" := JStr (rawNotes st)]> ∅)))))).

Definition request_body (st : State) : option JSON := Some (wire (payload st)).

(** The document [handleAnalyze] adds to the audit store for the
    analysis result [data] it has read from a successful response;
    [createdAt] is assigned by the store. *)
Record AuditRecord : Type := mkAuditRecord {
  audit_agentEmail : JSON;
  audit_issueType : string;
  audit_rawNotes : string;
  audit_bookingTotal : OptNum;
  audit_refundedAmount : OptNum;
  audit_refundPercent : option float;
  risk_score : option JSON;
  risk_level : option JSON;
  confidence : option JSON;
  signals : JSON;
  warnings : JSON;
  next_steps : JSON;
  recommended_script : JSON;
  missing_info : JSON;
  meta : JSON
}.

(** [data.risk_score] and the like are plain property reads: they throw
    when [data] is [null]. *)
Definition auditRecord (st : State) (data : JSON) : Exn + AuditRecord :=
  match data with
  | JNull => inl (TypeError "Cannot read properties of null")
  | _ =>
      let d := Some data in
      inr {| audit_agentEmail :=
               JS.or_else (Some (JStr (agentEmail st))) (JStr "unknown");
             audit_issueType := issueType st;
             audit_rawNotes := rawNotes st;
             audit_bookingTotal := toNumber (bookingTotal st);
             audit_refundedAmount := toNumber (refundedAmount st);
             audit_refundPercent := refundPercent st;
             risk_score := JS.field d "risk_score";
             risk_level := JS.field d "risk_level";
             confidence := JS.field d "confidence";
             signals := JS.nullish (JS.field d "signals") (JArr []);
             warnings := JS.nullish (JS.field d "warnings") (JArr []);
             next_steps := JS.nullish (JS.field d "next_steps") (JArr []);
             recommended_script :=
               JS.nullish (JS.field d "recommended_script") (JArr []);
             missing_info := JS.nullish (JS.field d "missing_info") (JArr []);
             meta := JS.nullish (JS.field d "meta") (JObj ∅) |}
  end.

(** The field of the audit record that holds the sequence [name]. *)
Definition audit_sequence (name : string) (r : AuditRecord) : option JSON :=
  if String.eqb name "signals" then Some (signals r)
  else if String.eqb name "warnings" then Some (warnings r)
  else if String.eqb name "next_steps" then Some (next_steps r)
  else if String.eqb name "recommended_script" then Some (recommended_script r)
  else if String.eqb name "missing_info" then Some (missing_info r)
  else None.

End App.

(** ** The specification's side

    Definitions that follow the wording of the specification, to be
    compared with the functions above. *)
Module Spec.

(** A value of [z.number().nullable().optional()]: a number other than
    [NaN], [null], or [undefined]. *)
Definition schema_number (v : OptNum) : Prop :=
  match v with
  | Num x => PrimFloat.is_nan x = false
  | _ => True
  end.

(** "missing". *)
Definition missing (v : OptNum) : bool :=
  match v with
  | NumUndefined | NumNull => true
  | Num _ => false
  end.

(** "zero, or negative". *)
Definition zero_or_negative (v : OptNum) : bool :=
  match v with
  | Num x => (x =? 0)%float || (x <? 0)%float
  | _ => false
  end.

(** 4.1: absent when [total] is missing, zero or negative, or [refunded]
    is missing; otherwise [(refunded / total) * 100]. *)
Definition computeRefundPercent (total refunded : OptNum) : option float :=
  match total, refunded with
  | Num t, Num r =>
      if zero_or_negative total then None else Some ((r / t) * 100)%float
  | _, _ => None
  end.

(** The five policy fields the calculator determines. *)
Definition policy_fields : list string :=
  ["refund_percent"; "soft_cap_exceeded"; "hard_cap_exceeded";
   "encouraged_cap_percent"; "max_cap_percent"].

(** The array-valued fields of an engine output. *)
Definition sequence_fields : list string :=
  ["signals"; "warnings"; "recommended_script"; "next_steps"; "missing_info"].

(** 4.3: "the substring from the first opening brace to the last closing
    brace", when there is such a pair. *)
Definition brace_substring (text : string) : option string :=
  match Str.find_first "{" text 0, Str.find_last "}" text 0 with
  | Some i, Some j =>
      if (i <? j)%nat then Some (String.substring i (j + 1 - i) text) else None
  | _, _ => None
  end.

(** 4.3: a strict parse of the whole text; if it fails, a parse of the
    brace substring; with no brace pair, a malformed-output error. *)
Definition strict_then_brace_span
    (JSON_parse : JSON -> Exn + JSON) (text : string) : Exn + JSON :=
  match JSON_parse (JStr text) with
  | inr v => inr v
  | inl _ =>
      match brace_substring text with
      | Some span => JSON_parse (JStr span)
      | None => inl (Error "Model did not return JSON")
      end
  end.

(** 4.5: a request "whose rawNotes has length less than 10 or whose
    issueType is empty". *)
Definition short_notes_or_empty_issue (body : option JSON) : Prop :=
  (exists s, JS.field body "rawNotes" = Some (JStr s) /\ (String.length s < 10)%nat)
  \/ JS.field body "issueType" = Some (JStr "").

(** 4.5: a numeric field "coerced to number-or-null": the field is absent,
    is null, or is a number other than [NaN]. *)
Definition number_or_null_or_absent (v : option JSON) : Prop :=
  v = None \/ v = Some JNull
  \/ exists x, v = Some (JNum x) /\ PrimFloat.is_nan x = false.

(** A response that is "a JSON object with a single error text field and
    a client-error status". *)
Definition error_response (r : HttpResponse) : Prop :=
  status r = 400%nat /\ exists msg, body r = JObj {["error" := JStr msg]}.

(** 7: the stages at which an analysis fails: validation, engine
    transport (the request is rejected, the response is not a success, or
    its body cannot be read), empty engine output, malformed engine
    output.  [parseModelText] is how the server file at hand reads the
    engine's text. *)
Inductive Failure (fetch : string -> FetchResult)
    (JSON_parse parseModelText : JSON -> Exn + JSON)
    (buildPrompt : Input -> string) (body : option JSON) : Prop :=
| validation_failed (e : Exn) :
    AnalyzeSchema_parse body = inl e ->
    Failure fetch JSON_parse parseModelText buildPrompt body
| transport_rejected (input : Input) (e : Exn) :
    AnalyzeSchema_parse body = inr input ->
    fetch (buildPrompt input) = Rejected e ->
    Failure fetch JSON_parse parseModelText buildPrompt body
| transport_not_ok (input : Input) (raw : string) :
    AnalyzeSchema_parse body = inr input ->
    fetch (buildPrompt input) = Response false raw ->
    Failure fetch JSON_parse parseModelText buildPrompt body
| transport_unreadable (input : Input) (raw : string) (e : Exn) :
    AnalyzeSchema_parse body = inr input ->
    fetch (buildPrompt input) = Response true raw ->
    JSON_parse (JStr raw) = inl e ->
    Failure fetch JSON_parse parseModelText buildPrompt body
| empty_output (input : Input) (raw : string) (json : JSON) :
    AnalyzeSchema_parse body = inr input ->
    fetch (buildPrompt input) = Response true raw ->
    JSON_parse (JStr raw) = inr json ->
    JS.truthy (modelText json) = false ->
    Failure fetch JSON_parse parseModelText buildPrompt body
| malformed_output (input : Input) (raw : string) (json : JSON) (e : Exn) :
    AnalyzeSchema_parse body = inr input ->
    fetch (buildPrompt input) = Response true raw ->
    JSON_parse (JStr raw) = inr json ->
    JS.truthy (modelText json) = true ->
    parseModelText (modelText json) = inl e ->
    Failure fetch JSON_parse parseModelText buildPrompt body.

(** The analysis went through: the engine's text was read as [data]. *)
Definition Completed (fetch : string -> FetchResult)
    (JSON_parse parseModelText : JSON -> Exn + JSON)
    (buildPrompt : Input -> string) (body : option JSON)
    (input : Input) (data : JSON) : Prop :=
  AnalyzeSchema_parse body = inr input
  /\ exists raw json,
      fetch (buildPrompt input) = Response true raw
      /\ JSON_parse (JStr raw) = inr json
      /\ JS.truthy (modelText json) = true
      /\ parseModelText (modelText json) = inr data.

(** The value the server receives for a numeric text field of the
    form. *)
Definition received (text : string) : OptNum :=
  match wire (App.number_or_null text) with
  | JNum x => Num x
  | _ => NumNull
  end.

(** The same percentage: both absent, or two numbers that are the same
    value or compare equal (as [0] and [-0] do). *)
Definition same_percent (a b : option float) : Prop :=
  match a, b with
  | None, None => True
  | Some x, Some y => x = y \/ (x =? y)%float = true
  | _, _ => False
  end.

End Spec.

(** ** Sample data for the evaluated examples *)
Module Sample.

(** A validated request: a booking of 100 with 25 refunded, and the
    default caps. *)
Definition input : Input :=
  mkInput "guest disputes the resort fee" "Refund" (Num 100) (Num 25) 15 20.

(** The form as the agent has filled it in. *)
Definition form (total refunded : string) : App.State :=
  App.mkState "guest disputes the resort fee" "Refund" total refunded "".

(** An engine that answers every request with a successful response
    whose first candidate carries [text]; [text] is written with
    apostrophes for the double quotes of JSON, each behind a backslash. *)
Definition engine (text : string) (prompt : string) : FetchResult :=
  Response true
    (JSONText.quoted
       ("{'candidates':[{'content':{'parts':[{'text':'" ++ text ++ "'}]}}]}")).

(** A stand-in for [buildPrompt]: the case inputs without the policy
    text. *)
Definition prompt (input : Input) : string :=
  "Issue Type: " ++ issueType input ++ " AGENT NOTES: " ++ rawNotes input.

(** A stand-in for the message texts of zod and of the JavaScript
    engine. *)
Definition library_message (e : Exn) : string :=
  match e with
  | Error m => m
  | ZodError _ => "ZodError"
  | SyntaxError _ => "SyntaxError"
  | TypeError _ => "TypeError"
  end.

End Sample.

(** * The rest of the server files and of the client component *)

(** ** More string methods *)
Module Text.

(** [s.trim()]: white space and line terminators are removed from both
    ends. *)
Definition trim (s : string) : string :=
  string_of_list_ascii (StringToNumber.trim (list_ascii_of_string s)).

(** [s.replace(pattern, "")] for a string [pattern]: the first occurrence
    is removed. *)
Definition remove_first (s pattern : string) : string :=
  match Str.find_first pattern s 0 with
  | Some i =>
      String.substring 0 i s
      ++ String.substring (i + String.length pattern)
                          (String.length s - (i + String.length pattern)) s
  | None => s
  end.

(** [items.join(", ")] for strings. *)
Definition join (items : list string) : string :=
  match items with
  | [] => ""
  | x :: rest => fold_left (fun acc y => acc ++ ", " ++ y) rest x
  end.

(** [a || b] where [a] is a string or [undefined]. *)
Definition or_default (a : option string) (b : string) : string :=
  match a with
  | Some s => if String.eqb s "" then b else s
  | None => b
  end.

End Text.

(** ** Configuration (the same in both files, lines 25-34 of
    [src/unnamed/part_001]) *)
Module Config.

(** [process.env.GEMINI_MODEL || "gemini-1.5-flash"]. *)
Definition RAW_MODEL (GEMINI_MODEL : option string) : string :=
  Text.or_default GEMINI_MODEL "gemini-1.5-flash".

(** [RAW_MODEL.startsWith("models/") ? RAW_MODEL.replace("models/", "")
    : RAW_MODEL]. *)
Definition MODEL (GEMINI_MODEL : option string) : string :=
  let raw := RAW_MODEL GEMINI_MODEL in
  if String.prefix "models/" raw then Text.remove_first raw "models/" else raw.

(** [["http://localhost:5173", process.env.FRONTEND_URL].filter(Boolean)]
    of [src/unnamed/part_001]. *)
Definition allowedOrigins (FRONTEND_URL : option string) : list string :=
  "http://localhost:5173"
  :: match FRONTEND_URL with
     | Some url => if String.eqb url "" then [] else [url]
     | None => []
     end.

Definition includes (items : list string) (x : string) : bool :=
  existsb (String.eqb x) items.

(** The [origin] function given to [cors] in [src/unnamed/part_001]
    (lines 44-57): its callback gets [true] or an [Error]. *)
Definition corsOrigin (FRONTEND_URL : option string) (origin : option string)
  : Exn + bool :=
  match origin with
  | None => inr true
  | Some o =>
      if String.eqb o "" then inr true
      else if includes (allowedOrigins FRONTEND_URL) o then inr true
      else inl (Error ("CORS blocked. Origin not allowed: " ++ o ++ ". Allowed: "
                       ++ Text.join (allowedOrigins FRONTEND_URL)))
  end.

End Config.

(** ** 4.2 Instruction builder *)
Module Prompt.

(** [value ?? "unknown"] inside a template literal. *)
Definition number_or_unknown (v : OptNum) : string :=
  match v with
  | Num x => Dec.toString x
  | _ => "unknown"
  end.

(** [refundPercent == null ? "unknown" : refundPercent.toFixed(2) + "%"]. *)
Definition percent_or_unknown (p : option float) : string :=
  match p with
  | None => "unknown"
  | Some x => Dec.toFixed2 x ++ "%"
  end.

(** A line break, and the end of the notes: a line break and three double
    quotes. *)
Definition newline : string := String (ascii_of_nat 10) "".

Definition closing : string :=
  newline ++ String JSONText.quote (String JSONText.quote (String JSONText.quote "")).

End Prompt.

(** The template literal of [buildPrompt] in [src/server/server.js]
    (lines 68-101), up to the notes.  A segment that holds double quotes
    is written with apostrophes and converted by [JSONText.quoted]. *)
Definition ServerJs_preamble (input : Input) : string :=
  "
You are a Refund & Chargeback Risk Predictor for a travel call center.

POLICY (NON-NEGOTIABLE):
- Encouraged refund cap: "
  ++ Dec.toString (encouragedRefundCapPercent input)
  ++ "% (try to stay at or under this)
- Maximum agent refund cap: "
  ++ Dec.toString (maxRefundCapPercent input)
  ++ "% (over this requires manager escalation)
- If refund is between "
  ++ Dec.toString (encouragedRefundCapPercent input)
  ++ "% and "
  ++ Dec.toString (maxRefundCapPercent input)
  ++ JSONText.quoted "%, treat as HIGH scrutiny and recommend escalation.
- Never promise refunds, approvals, or free upgrades.

Return ONLY valid JSON with this exact shape:
{
  'risk_score': number,
  'risk_level': 'low' | 'medium' | 'high',
  'confidence': number,
  'signals': [
    { 'name': string, 'evidence_quote': string, 'weight': number }
  ],
  'warnings': [string],
  'recommended_script': [string],
  'next_steps': [string],
  'missing_info': [string]
}

INPUTS:
Issue Type: "
  ++ issueType input
  ++ "
Booking Total: "
  ++ Prompt.number_or_unknown (bookingTotal input)
  ++ "
Refunded Amount: "
  ++ Prompt.number_or_unknown (refundedAmount input)
  ++ "
Refund Percent: "
  ++ Prompt.percent_or_unknown (refundPercent input)
  ++ JSONText.quoted "

AGENT NOTES:
'''
".

(** The whole template literal: the notes follow, then a line break, three
    double quotes and a line break. *)
Definition ServerJs_template (input : Input) : string :=
  ServerJs_preamble input ++ rawNotes input ++ Prompt.closing ++ Prompt.newline.

(** The template literal of [buildPrompt] in [src/unnamed/part_001]
    (lines 97-142), up to the notes. *)
Definition Part001_preamble (input : Input) : string :=
  "
You are a Refund & Chargeback Risk Predictor for a travel call center.

POLICY (NON-NEGOTIABLE):
- Encouraged refund cap: "
  ++ Dec.toString (encouragedRefundCapPercent input)
  ++ "% (try to stay at or under this)
- Maximum agent refund cap: "
  ++ Dec.toString (maxRefundCapPercent input)
  ++ "% (agents may refund up to this, but it should trigger escalation)
- If refund percent is between "
  ++ Dec.toString (encouragedRefundCapPercent input)
  ++ "% and "
  ++ Dec.toString (maxRefundCapPercent input)
  ++ "%, treat as HIGH scrutiny and recommend escalation/manager review.
- If refund percent is above "
  ++ Dec.toString (maxRefundCapPercent input)
  ++ JSONText.quoted "%, label it as a POLICY VIOLATION and recommend immediate manager escalation.
- Never promise refunds, approvals, or free upgrades.

Return ONLY valid JSON with this exact shape:
{
  'risk_score': number,
  'risk_level': 'low' | 'medium' | 'high',
  'confidence': number,
  'signals': [
    { 'name': string, 'evidence_quote': string, 'weight': number }
  ],
  'warnings': [string],
  'recommended_script': [string],
  'next_steps': [string],
  'missing_info': [string],
  'policy': {
    'encouraged_cap_percent': number,
    'max_cap_percent': number,
    'refund_percent': number | null,
    'soft_cap_exceeded': boolean,
    'hard_cap_exceeded': boolean
  }
}

RISK GUIDELINES:
- Sales error/misrepresentation claims, billing discrepancies, angry disconnects, hotel unreachable => increase risk
- Missing info => reduce confidence and request clarification

INPUTS:
Issue Type: "
  ++ issueType input
  ++ "
Booking Total: "
  ++ Prompt.number_or_unknown (bookingTotal input)
  ++ "
Refunded Amount: "
  ++ Prompt.number_or_unknown (refundedAmount input)
  ++ "
Refund Percent: "
  ++ Prompt.percent_or_unknown (refundPercent input)
  ++ JSONText.quoted "

AGENT NOTES:
'''
".

(** The whole template literal: the notes follow, then a line break, three
    double quotes and a line break. *)
Definition Part001_template (input : Input) : string :=
  Part001_preamble input ++ rawNotes input ++ Prompt.closing ++ Prompt.newline.

(** [buildPrompt] of each file: the template, trimmed. *)
Definition ServerJs_buildPrompt (input : Input) : string :=
  Text.trim (ServerJs_template input).

Definition Part001_buildPrompt (input : Input) : string :=
  Text.trim (Part001_template input).

(** ** The rest of the client component ([src/unnamed/part_000]) *)
Module Flow.

(** The two hints of [capWarning]: over the cap of 15 percent, and
    close to it. *)
Inductive CapWarning : Type :=
| OverCap
| CloseToCap.

(** [capWarning] (lines 88-93). *)
Definition capWarning (st : App.State) : option CapWarning :=
  match App.refundPercent st with
  | Some p =>
      if (15 <? p)%float then Some OverCap
      else if (12 <=? p)%float then Some CloseToCap
      else None
  | None => None
  end.

(** [disabled={loading || !rawNotes.trim()}] of the Analyze button. *)
Definition analyzeDisabled (loading : bool) (st : App.State) : bool :=
  loading || String.eqb (Text.trim (App.rawNotes st)) "".

(** The text of [saveStatus]: empty, "Saving to Firestore...", the
    confirmation of a saved record, or the cross mark followed by the
    message of the error. *)
Inductive SaveStatus : Type :=
| NoStatus
| Saving
| Saved
| Failed (message : string).

(** What [handleAnalyze] leaves in the component state. *)
Record View : Type := mkView {
  loading : bool;
  result : option JSON;
  saveStatus : SaveStatus
}.

(** The response of the server as the client reads it: [res.ok],
    [res.status], and what [res.text()] and [res.json()] resolve to. *)
Record Reply : Type := mkReply {
  reply_ok : bool;
  reply_status : nat;
  reply_text : Exn + string;
  reply_json : Exn + JSON
}.

Inductive PostResult : Type :=
| PostRejected (e : Exn)
| PostReply (r : Reply).

(** The requests the component sends: the analysis request with its
    payload, and the document given to [addDoc]. *)
Inductive Call : Type :=
| Posted (payload : JSON)
| AuditWrite (record : App.AuditRecord).

(** [setResult(data)]: the state holds the value, [null] included. *)
Definition shown (data : JSON) : option JSON :=
  match data with
  | JNull => None
  | _ => Some data
  end.

Section Handle.

(** The server and the audit store. *)
Variable post : JSON -> PostResult.
Variable addDoc : App.AuditRecord -> Exn + unit.
Variable library_message : Exn -> string.

(** The [catch] and [finally] blocks: the status shows the message and
    the component stops loading; [result] is what the [try] block left. *)
Definition caught (e : Exn) (result : option JSON) : View :=
  mkView false result (Failed (message library_message e)).

(** [handleAnalyze] (lines 95-154). *)
Definition handleAnalyze (st : App.State) : View * list Call :=
  let payload := App.payload st in
  match post payload with
  | PostRejected e => (caught e None, [Posted payload])
  | PostReply r =>
      if negb (reply_ok r) then
        match reply_text r with
        | inl e => (caught e None, [Posted payload])
        | inr text =>
            (caught (Error (Text.or_default (Some text)
                              ("Server error ("
                               ++ NilZero.string_of_uint (Nat.to_uint (reply_status r))
                               ++ ")")))
                    None,
             [Posted payload])
        end
      else
        match reply_json r with
        | inl e => (caught e None, [Posted payload])
        | inr data =>
            match App.auditRecord st data with
            | inl e => (caught e (shown data), [Posted payload])
            | inr record =>
                match addDoc record with
                | inl e =>
                    (caught e (shown data), [Posted payload; AuditWrite record])
                | inr _ =>
                    (mkView false (shown data) Saved,
                     [Posted payload; AuditWrite record])
                end
            end
        end
  end.

End Handle.

End Flow.

(** Two values of a numeric field hold the same number: both are null, or
    both are numbers that are the same value, a zero of either sign
    counting as [0]. *)
Definition same_number (a b : OptNum) : Prop :=
  match a, b with
  | Num x, Num y => x = y \/ ((x =? 0)%float = true /\ y = 0%float)
  | NumNull, NumNull => True
  | _, _ => False
  end.

(** * Properties *)

(** ** Facts about binary64 comparison *)

Section FloatFacts.

Local Open Scope float_scope.

Lemma SFcompare_Eq_sym (a b : spec_float) :
  SFcompare a b = Some Eq -> SFcompare b a = Some Eq.
Proof.
  destruct a as [sa|sa| |sa ma ea], b as [sb|sb| |sb mb eb]; simpl;
    try destruct sa; try destruct sb; intros E;
    try discriminate E; try reflexivity.
  - destruct (Z.compare_spec ea eb) as [->| |]; try discriminate E.
    rewrite Z.compare_refl.
    change (Pos.compare_cont Eq ma mb) with (Pos.compare ma mb) in E.
    destruct (Pos.compare_spec ma mb) as [->| |]; try discriminate E.
    now rewrite Pos.compare_cont_refl.
  - destruct (Z.compare_spec ea eb) as [->| |]; try discriminate E.
    rewrite Z.compare_refl.
    change (Pos.compare_cont Eq ma mb) with (Pos.compare ma mb) in E.
    destruct (Pos.compare_spec ma mb) as [->| |]; try discriminate E.
    now rewrite Pos.compare_cont_refl.
Qed.

Lemma leb_ltb_eqb (x y : float) : (x <=? y) = (x <? y) || (x =? y).
Proof.
  rewrite FloatAxioms.leb_spec, FloatAxioms.ltb_spec, FloatAxioms.eqb_spec.
  unfold SFleb, SFltb, SFeqb.
  destruct (SFcompare (Prim2SF x) (Prim2SF y)) as [[]|]; reflexivity.
Qed.

Lemma eqb_not_gtb (x y : float) : (x =? y) = true -> (y <? x) = false.
Proof.
  rewrite FloatAxioms.eqb_spec, FloatAxioms.ltb_spec. unfold SFeqb, SFltb.
  destruct (SFcompare (Prim2SF x) (Prim2SF y)) as [[]|] eqn:E; try discriminate.
  now rewrite (SFcompare_Eq_sym _ _ E).
Qed.

End FloatFacts.

(** ** 4.1 The calculator *)

Lemma truthyOptNum_schema (total : OptNum) :
  Spec.schema_number total ->
  negb (JS.truthyOptNum total) || (JS.to_number total <=? 0)%float
  = Spec.missing total || Spec.zero_or_negative total.
Proof.
  destruct total as [| |x]; simpl; try reflexivity.
  intros Hnan. unfold JS.truthyNumber. rewrite Hnan, negb_involutive. simpl.
  rewrite leb_ltb_eqb. destruct (x =? 0)%float, (x <? 0)%float; reflexivity.
Qed.

(** C2. For a total that the request schema admits (a number other than
    NaN, null, or undefined) and any refunded amount,
    [computeRefundPercent] is absent when the total is missing, zero or
    negative or when the refunded amount is missing, and is
    [(refunded / total) * 100] otherwise.  The function always returns:
    absent is the value [null] ([None]), neither 0 nor an exception.  The
    percentage can exceed 100: a refund of 250 on a total of 100 gives
    250.  (A NaN total, which the schema rejects, gives absent as well.) *)
Theorem computeRefundPercent_fails_closed :
  (forall total refunded : OptNum,
      Spec.schema_number total ->
      computeRefundPercent total refunded = Spec.computeRefundPercent total refunded)
  /\ (forall total refunded : OptNum,
      Spec.missing total || Spec.zero_or_negative total || Spec.missing refunded = true ->
      Spec.computeRefundPercent total refunded = None)
  /\ (forall t r : float,
      Spec.missing (Num t) || Spec.zero_or_negative (Num t) || Spec.missing (Num r) = false ->
      Spec.computeRefundPercent (Num t) (Num r) = Some ((r / t) * 100)%float)
  /\ (computeRefundPercent (Num 100) (Num 250) = Some 250%float
      /\ (100 <? 250)%float = true)
  /\ (forall (t : float) (refunded : OptNum),
      PrimFloat.is_nan t = true -> computeRefundPercent (Num t) refunded = None).
Proof.
  split; [|split; [|split; [|split]]].
  - intros total refunded H. unfold computeRefundPercent.
    rewrite (truthyOptNum_schema _ H).
    destruct total as [| |t], refunded as [| |r]; simpl; try reflexivity.
    all: destruct ((t =? 0)%float || (t <? 0)%float); reflexivity.
  - intros [| |t] [| |r]; simpl; try reflexivity.
    rewrite orb_false_r. now intros ->.
  - intros t r. simpl. rewrite orb_false_r. now intros ->.
  - split; reflexivity.
  - intros t refunded H. unfold computeRefundPercent. simpl.
    unfold JS.truthyNumber. rewrite H. reflexivity.
Qed.

Lemma computeRefundPercent_fails_closed_witness :
  Spec.schema_number (Num 560)
  /\ computeRefundPercent (Num 560) NumNull = Spec.computeRefundPercent (Num 560) NumNull.
Proof.
  split; [reflexivity|].
  apply (proj1 computeRefundPercent_fails_closed (Num 560) NumNull).
  reflexivity.
Defined.

Lemma exceeds_iff (p : option float) (cap : float) :
  exceeds p cap = true <-> exists x, p = Some x /\ (cap <? x)%float = true.
Proof.
  destruct p as [x|]; simpl; split.
  - intros H. now exists x.
  - now intros (y & [= <-] & H).
  - discriminate.
  - now intros (y & [=] & _).
Qed.

(** C3. For every request record (so for every validated request),
    [softCapExceeded] holds exactly when the refund percent is present and
    strictly greater than the encouraged cap, [hardCapExceeded] exactly
    when it is present and strictly greater than the maximum cap; a
    percent equal to a cap does not exceed it, and both flags are false
    when the percent is absent. *)
Theorem cap_flags_strict (input : Input) :
  (softCapExceeded input = true <->
     exists p, refundPercent input = Some p
               /\ (encouragedRefundCapPercent input <? p)%float = true)
  /\ (hardCapExceeded input = true <->
     exists p, refundPercent input = Some p
               /\ (maxRefundCapPercent input <? p)%float = true)
  /\ (forall p, refundPercent input = Some p ->
        ((p =? encouragedRefundCapPercent input)%float = true ->
           softCapExceeded input = false)
        /\ ((p =? maxRefundCapPercent input)%float = true ->
           hardCapExceeded input = false))
  /\ (refundPercent input = None ->
        softCapExceeded input = false /\ hardCapExceeded input = false).
Proof.
  unfold softCapExceeded, hardCapExceeded.
  split; [apply exceeds_iff|]. split; [apply exceeds_iff|]. split.
  - intros p ->. simpl. split; apply eqb_not_gtb.
  - intros ->. split; reflexivity.
Qed.

(** Scenarios A, B and C of the specification, evaluated. *)
Example scenario_A :
  let input := mkInput "notes of the agent" "Refund" (Num 560) (Num 85.06) 15 20 in
  option_map Dec.toFixed2 (refundPercent input) = Some "15.19"
  /\ softCapExceeded input = true /\ hardCapExceeded input = false.
Proof. vm_compute. repeat split. Qed.

Example scenario_B :
  let input := mkInput "notes of the agent" "Refund" (Num 100) (Num 25) 15 20 in
  refundPercent input = Some 25%float
  /\ softCapExceeded input = true /\ hardCapExceeded input = true.
Proof. vm_compute. repeat split. Qed.

Example scenario_C :
  let input := mkInput "notes of the agent" "Refund" NumUndefined (Num 50) 15 20 in
  refundPercent input = None
  /\ softCapExceeded input = false /\ hardCapExceeded input = false.
Proof. vm_compute. repeat split. Qed.

Example at_the_cap_is_compliant :
  let input := mkInput "notes of the agent" "Refund" (Num 100) (Num 15) 15 20 in
  refundPercent input = Some 15%float /\ softCapExceeded input = false.
Proof. vm_compute. repeat split. Qed.

(** ** 4.4 The reconciler *)

Lemma local_policy_lookup (input : Input) :
  local_policy input !! "refund_percent" = Some (number_or_null (refundPercent input))
  /\ local_policy input !! "soft_cap_exceeded" = Some (JBool (softCapExceeded input))
  /\ local_policy input !! "hard_cap_exceeded" = Some (JBool (hardCapExceeded input))
  /\ local_policy input !! "encouraged_cap_percent"
     = Some (JNum (encouragedRefundCapPercent input))
  /\ local_policy input !! "max_cap_percent" = Some (JNum (maxRefundCapPercent input)).
Proof. unfold local_policy. repeat split; by simplify_map_eq. Qed.

Lemma merged_policy_field (input : Input) (data : JSON) :
  JS.field (Some (merged input data)) "policy" = Some (JObj (merged_policy input data)).
Proof. unfold merged. simpl. by rewrite lookup_insert_eq. Qed.

Lemma merged_other_field (input : Input) (data : JSON) (name : string) :
  name <> "policy" ->
  JS.field (Some (merged input data)) name = JS.own_props (Some data) !! name.
Proof. intros H. unfold merged. simpl. by rewrite lookup_insert_ne. Qed.

(** A property name that is not the decimal numeral of an index is not a
    property of the spread of an array or of a string. *)
Lemma indexed_from_lookup {A} (l : list A) (k : nat) (name : string) :
  (forall i, JS.index_key i <> name) ->
  (list_to_map (JS.indexed_from k l) : gmap string A) !! name = None.
Proof.
  intros H. revert k. induction l as [|x l IH]; intros k; simpl.
  - apply lookup_empty.
  - rewrite lookup_insert_ne; [apply IH | apply H].
Qed.

Lemma own_props_absent (data : JSON) (name : string) :
  (forall i, JS.index_key i <> name) ->
  JS.field (Some data) name = None ->
  JS.own_props (Some data) !! name = None.
Proof.
  intros Hname H. destruct data; simpl in *; try apply lookup_empty;
    try assumption; by apply indexed_from_lookup.
Qed.

Lemma index_key_digit (i : nat) :
  exists c rest, JS.index_key i = String c rest /\ Dec.is_digit c = true.
Proof.
  unfold JS.index_key, NilZero.string_of_uint.
  destruct (Nat.to_uint i); simpl; eauto.
Qed.

Lemma sequence_field_not_index (name : string) :
  name ∈ Spec.sequence_fields -> forall i, JS.index_key i <> name.
Proof.
  intros H i E. destruct (index_key_digit i) as (c & rest & Hc & Hd).
  rewrite E in Hc. unfold Spec.sequence_fields in H.
  repeat (apply elem_of_cons in H as [->|H]); try (by apply elem_of_nil in H);
    injection Hc as <- _; discriminate Hd.
Qed.

Lemma sequence_field_not_policy (name : string) :
  name ∈ Spec.sequence_fields -> name <> "policy".
Proof.
  unfold Spec.sequence_fields. intros H ->.
  repeat (apply elem_of_cons in H as [[=]|H]). by apply elem_of_nil in H.
Qed.

(** C1, as stated, fails: the engine's [refund_percent] of 99 survives the
    reconciliation although the calculator finds 25. *)
Lemma engine_policy_field_survives :
  let data := JObj {["policy" := JObj {["refund_percent" := JNum 99]}]} in
  JS.field (Some data) "policy" = Some (JObj {["refund_percent" := JNum 99]})
  /\ refundPercent Sample.input = Some 25%float
  /\ merged_policy Sample.input data !! "refund_percent" = Some (JNum 99)
  /\ (99 =? 25)%float = false.
Proof. vm_compute. repeat split. Qed.

(** C1, amended. For every engine output that contains its own policy
    sub-object, the policy block of the reconciled result holds every
    field of the engine's policy unchanged, the five calculated fields
    included when the engine supplies them; a calculated field
    ([refund_percent], [soft_cap_exceeded], [hard_cap_exceeded],
    [encouraged_cap_percent], [max_cap_percent]) has its locally computed
    value exactly when the engine's policy does not have that field. *)
Theorem merged_policy_engine_fields_win
    (input : Input) (data : JSON) (policy : gmap string JSON) :
  JS.field (Some data) "policy" = Some (JObj policy) ->
  JS.field (Some (merged input data)) "policy" = Some (JObj (merged_policy input data))
  /\ (forall name v, policy !! name = Some v ->
        merged_policy input data !! name = Some v)
  /\ (forall name, policy !! name = None ->
        merged_policy input data !! name = local_policy input !! name)
  /\ (policy !! "refund_percent" = None ->
        merged_policy input data !! "refund_percent"
        = Some (number_or_null (refundPercent input)))
  /\ (policy !! "soft_cap_exceeded" = None ->
        merged_policy input data !! "soft_cap_exceeded"
        = Some (JBool (softCapExceeded input)))
  /\ (policy !! "hard_cap_exceeded" = None ->
        merged_policy input data !! "hard_cap_exceeded"
        = Some (JBool (hardCapExceeded input)))
  /\ (policy !! "encouraged_cap_percent" = None ->
        merged_policy input data !! "encouraged_cap_percent"
        = Some (JNum (encouragedRefundCapPercent input)))
  /\ (policy !! "max_cap_percent" = None ->
        merged_policy input data !! "max_cap_percent"
        = Some (JNum (maxRefundCapPercent input))).
Proof.
  intros H.
  assert (E : engine_policy data = policy).
  { unfold engine_policy. rewrite H. reflexivity. }
  assert (L : forall name, policy !! name = None ->
                merged_policy input data !! name = local_policy input !! name).
  { intros name Hn. unfold merged_policy. rewrite E. by apply lookup_union_r. }
  destruct (local_policy_lookup input) as (L1 & L2 & L3 & L4 & L5).
  split; [apply merged_policy_field|]. split.
  { intros name v Hn. unfold merged_policy. rewrite E. by apply lookup_union_Some_l. }
  split; [exact L|].
  repeat split; intros Hn; rewrite (L _ Hn); assumption.
Qed.

Lemma merged_policy_engine_fields_win_witness :
  let data := JObj {["policy" := JObj {["reviewer" := JStr "manager"]}]} in
  merged_policy Sample.input data !! "reviewer" = Some (JStr "manager")
  /\ merged_policy Sample.input data !! "refund_percent" = Some (JNum 25).
Proof.
  intros data.
  pose proof (merged_policy_engine_fields_win Sample.input data
                {["reviewer" := JStr "manager"]} eq_refl) as (_ & Hk & _ & Hp & _).
  split.
  - apply Hk. reflexivity.
  - apply Hp. reflexivity.
Defined.

(** C6. For every engine output, one with no policy sub-object included,
    the reconciled result has a [policy] property that is an object, and
    that object has each of the five calculated fields; when the engine
    output has no (truthy) policy, the block is the locally computed
    one. *)
Theorem merged_always_has_policy (input : Input) (data : JSON) :
  (exists policy,
      JS.field (Some (merged input data)) "policy" = Some (JObj policy)
      /\ forall name, name ∈ Spec.policy_fields -> is_Some (policy !! name))
  /\ (JS.truthyOpt (JS.field (Some data) "policy") = false ->
      JS.field (Some (merged input data)) "policy" = Some (JObj (local_policy input))).
Proof.
  split.
  - exists (merged_policy input data). split; [apply merged_policy_field|].
    intros name Hn. unfold merged_policy.
    apply lookup_union_is_Some. right.
    destruct (local_policy_lookup input) as (L1 & L2 & L3 & L4 & L5).
    unfold Spec.policy_fields in Hn.
    repeat (apply elem_of_cons in Hn as [->|Hn]); try (by apply elem_of_nil in Hn);
      eauto.
  - intros H. rewrite merged_policy_field. do 2 f_equal.
    unfold merged_policy, engine_policy, JS.or_else.
    destruct (JS.field (Some data) "policy") as [v|]; simpl in *.
    + rewrite H. simpl. apply (left_id ∅ (∪)).
    + apply (left_id ∅ (∪)).
Qed.

Lemma field_wire (v : JSON) (name : string) :
  JS.field (Some (wire v)) name = wire <$> JS.field (Some v) name.
Proof.
  destruct v; simpl; try reflexivity.
  - unfold wire_number. by destruct (is_finite x).
  - by rewrite lookup_fmap.
Qed.

(** C4, as stated, fails: an engine output without [signals] gives a
    reconciled result, and a response body, without [signals]. *)
Lemma missing_signals_stay_missing :
  JS.field (Some (JObj ∅)) "signals" = None
  /\ JS.field (Some (merged Sample.input (JObj ∅))) "signals" = None
  /\ (let '(response, _) :=
        Part001.analyze (Sample.engine "{}") ES_JSON_parse Sample.prompt
                        Sample.library_message (App.request_body (Sample.form "100" "25")) in
      status response = 200%nat /\ JS.field (Some (body response)) "signals" = None).
Proof. vm_compute. repeat split. Qed.

(** C4, amended. For every engine output in which one of the array-valued
    fields ([signals], [warnings], [recommended_script], [next_steps],
    [missing_info]) is absent, the reconciled result that the server
    returns leaves that field absent; the empty sequence is substituted by
    the client, in the audit record it builds from the response. *)
Theorem missing_sequence_normalized_by_client
    (input : Input) (data : JSON) (name : string) :
  name ∈ Spec.sequence_fields ->
  JS.field (Some data) name = None ->
  JS.field (Some (merged input data)) name = None
  /\ forall st : App.State,
      exists record,
        App.auditRecord st (wire (merged input data)) = inr record
        /\ App.audit_sequence name record = Some (JArr []).
Proof.
  intros Hname Habsent.
  assert (Hm : JS.field (Some (merged input data)) name = None).
  { rewrite merged_other_field by (by apply sequence_field_not_policy).
    apply own_props_absent; [by apply sequence_field_not_index | assumption]. }
  split; [exact Hm|]. intros st.
  assert (Hw : JS.field (Some (wire (merged input data))) name = None).
  { rewrite field_wire, Hm. reflexivity. }
  assert (Hobj : exists props, wire (merged input data) = JObj props)
    by (eexists; reflexivity).
  destruct Hobj as [props Hobj]. rewrite Hobj in *.
  eexists. split; [reflexivity|].
  unfold Spec.sequence_fields in Hname.
  repeat (apply elem_of_cons in Hname as [->|Hname]);
    try (by apply elem_of_nil in Hname);
    unfold App.audit_sequence; cbn -[JS.field JS.nullish];
    rewrite Hw; reflexivity.
Qed.

Lemma missing_sequence_normalized_by_client_witness :
  JS.field (Some (merged Sample.input (JObj ∅))) "warnings" = None
  /\ exists record,
      App.auditRecord (Sample.form "100" "25") (wire (merged Sample.input (JObj ∅)))
      = inr record
      /\ App.audit_sequence "warnings" record = Some (JArr []).
Proof.
  destruct (missing_sequence_normalized_by_client Sample.input (JObj ∅) "warnings")
    as [H1 H2].
  - unfold Spec.sequence_fields. set_solver.
  - reflexivity.
  - split; [exact H1 | apply H2].
Defined.

(** ** 4.5 The analysis endpoint *)

Lemma rejected_request_fails_validation (body : option JSON) :
  Spec.short_notes_or_empty_issue body ->
  exists issues, AnalyzeSchema_parse body = inl (ZodError issues).
Proof.
  intros H.
  destruct body as [[|b0|x0|s0|l0|props]|];
    try (destruct H as [(s & H & _)|H]; discriminate H).
  unfold AnalyzeSchema_parse.
  destruct H as [(s & H & Hlen)|H]; unfold JS.field in H; rewrite H.
  - apply Nat.leb_gt in Hlen. unfold z.string_min at 1. rewrite Hlen.
    eexists. reflexivity.
  - destruct (z.string_min 10 _); eexists; reflexivity.
Qed.

Lemma caps_default (body : option JSON) (input : Input) :
  AnalyzeSchema_parse body = inr input ->
  (JS.field body "encouragedRefundCapPercent" = None ->
     encouragedRefundCapPercent input = 15%float)
  /\ (JS.field body "maxRefundCapPercent" = None ->
     maxRefundCapPercent input = 20%float).
Proof.
  destruct body as [[|b0|x0|s0|l0|props]|]; try discriminate.
  unfold AnalyzeSchema_parse. simpl.
  destruct (z.string_min 10 _), (z.string_min 1 _),
    (z.number_nullable_optional (props !! "bookingTotal")),
    (z.number_nullable_optional (props !! "refundedAmount")),
    (z.number_default 15 _) eqn:E1, (z.number_default 20 _) eqn:E2;
    try discriminate.
  intros [= <-]. simpl. split; intros H; [rewrite H in E1 | rewrite H in E2];
    simpl in *; congruence.
Qed.

Section EndpointFacts.

Variable fetch : string -> FetchResult.
Variable JSON_parse : JSON -> Exn + JSON.
Variable buildPrompt : Input -> string.
Variable library_message : Exn -> string.

Lemma respond_error (e : Exn) (sent : list string) :
  Spec.error_response (respond library_message (inl e, sent)).1.
Proof. split; simpl; eauto. Qed.

Lemma Part001_invalid (body : option JSON) (e : Exn) :
  AnalyzeSchema_parse body = inl e ->
  Part001.analyze_try fetch JSON_parse buildPrompt body = (inl e, []).
Proof. intros H. unfold Part001.analyze_try. rewrite H. reflexivity. Qed.

Lemma ServerJs_invalid (body : option JSON) (e : Exn) :
  AnalyzeSchema_parse body = inl e ->
  ServerJs.analyze_try fetch JSON_parse buildPrompt body = (inl e, []).
Proof. intros H. unfold ServerJs.analyze_try. rewrite H. reflexivity. Qed.

End EndpointFacts.

(** A request without cap fields whose other fields pass the schema is
    accepted, with the caps 15 and 20. *)
Lemma caps_absent_accepted (props : gmap string JSON) (notes issue : string) :
  props !! "rawNotes" = Some (JStr notes) -> 10 <= String.length notes ->
  props !! "issueType" = Some (JStr issue) -> issue <> "" ->
  Spec.number_or_null_or_absent (props !! "bookingTotal") ->
  Spec.number_or_null_or_absent (props !! "refundedAmount") ->
  props !! "encouragedRefundCapPercent" = None ->
  props !! "maxRefundCapPercent" = None ->
  exists total refunded,
    AnalyzeSchema_parse (Some (JObj props))
    = inr (mkInput notes issue total refunded 15 20).
Proof.
  intros Hn Hlen Hi Hne Ht Hr He Hm.
  unfold AnalyzeSchema_parse. rewrite Hn, Hi, He, Hm.
  unfold z.string_min. apply Nat.leb_le in Hlen. rewrite Hlen.
  assert (Hil : (1 <=? String.length issue)%nat = true).
  { destruct issue; [congruence | reflexivity]. }
  rewrite Hil.
  assert (Hnum : forall v, Spec.number_or_null_or_absent v ->
                   exists t, z.number_nullable_optional v = Some t).
  { intros v [-> | [-> | (x & -> & Hx)]]; [by eexists | by eexists |].
    unfold z.number_nullable_optional, z.number. rewrite Hx. by eexists. }
  destruct (Hnum _ Ht) as [total ->]. destruct (Hnum _ Hr) as [refunded ->].
  by exists total, refunded.
Qed.

(** An absent cap field is read as the default sent explicitly: the
    outcome of the validation is the same, issues included. *)
Lemma caps_absent_as_explicit (props : gmap string JSON) :
  (props !! "encouragedRefundCapPercent" = None ->
     AnalyzeSchema_parse (Some (JObj props))
     = AnalyzeSchema_parse
         (Some (JObj (<["encouragedRefundCapPercent" := JNum 15]> props))))
  /\ (props !! "maxRefundCapPercent" = None ->
     AnalyzeSchema_parse (Some (JObj props))
     = AnalyzeSchema_parse
         (Some (JObj (<["maxRefundCapPercent" := JNum 20]> props)))).
Proof.
  split; intros H; unfold AnalyzeSchema_parse;
    rewrite lookup_insert_eq, !lookup_insert_ne by done; rewrite H; reflexivity.
Qed.

(** C7. Whatever the engine would answer, a request whose [rawNotes] has
    fewer than 10 characters or whose [issueType] is empty is answered
    with status 400 and an [error] object, and no request has been sent to
    the engine (in either server file).  The caps default to 15 and 20: a
    validated request that has no [encouragedRefundCapPercent] has the cap
    15, one that has no [maxRefundCapPercent] has the cap 20; a request
    with neither cap field is accepted, with the caps 15 and 20, whenever
    its notes have at least 10 characters, its issue type is not empty and
    its two amounts are absent, null or a number; and leaving a cap field
    out gives the same validation outcome as sending its default. *)
Theorem invalid_request_never_reaches_engine
    (fetch : string -> FetchResult) (JSON_parse : JSON -> Exn + JSON)
    (buildPrompt : Input -> string) (library_message : Exn -> string)
    (body : option JSON) :
  (Spec.short_notes_or_empty_issue body ->
     (exists r, Part001.analyze fetch JSON_parse buildPrompt library_message body = (r, [])
                /\ Spec.error_response r)
     /\ (exists r, ServerJs.analyze fetch JSON_parse buildPrompt library_message body = (r, [])
                /\ Spec.error_response r))
  /\ (forall input, AnalyzeSchema_parse body = inr input ->
        (JS.field body "encouragedRefundCapPercent" = None ->
           encouragedRefundCapPercent input = 15%float)
        /\ (JS.field body "maxRefundCapPercent" = None ->
           maxRefundCapPercent input = 20%float))
  /\ (forall props notes issue,
        body = Some (JObj props) ->
        props !! "rawNotes" = Some (JStr notes) -> 10 <= String.length notes ->
        props !! "issueType" = Some (JStr issue) -> issue <> "" ->
        Spec.number_or_null_or_absent (props !! "bookingTotal") ->
        Spec.number_or_null_or_absent (props !! "refundedAmount") ->
        props !! "encouragedRefundCapPercent" = None ->
        props !! "maxRefundCapPercent" = None ->
        exists total refunded,
          AnalyzeSchema_parse body = inr (mkInput notes issue total refunded 15 20))
  /\ (forall props, body = Some (JObj props) ->
        (props !! "encouragedRefundCapPercent" = None ->
           AnalyzeSchema_parse body
           = AnalyzeSchema_parse
               (Some (JObj (<["encouragedRefundCapPercent" := JNum 15]> props))))
        /\ (props !! "maxRefundCapPercent" = None ->
           AnalyzeSchema_parse body
           = AnalyzeSchema_parse
               (Some (JObj (<["maxRefundCapPercent" := JNum 20]> props))))).
Proof.
  split; [|split; [apply caps_default|split]].
  - intros H. destruct (rejected_request_fails_validation body H) as [issues E].
    split; eexists.
    + unfold Part001.analyze. rewrite (Part001_invalid _ _ _ _ _ E).
      split; [reflexivity | apply (respond_error _ _ [])].
    + unfold ServerJs.analyze. rewrite (ServerJs_invalid _ _ _ _ _ E).
      split; [reflexivity | apply (respond_error _ _ [])].
  - intros props notes issue ->. apply caps_absent_accepted.
  - intros props ->. apply caps_absent_as_explicit.
Qed.

Lemma invalid_request_never_reaches_engine_witness :
  let short := Some (JObj (<["rawNotes" := JStr "short"]> {["issueType" := JStr "Refund"]})) in
  let props : gmap string JSON :=
    <["rawNotes" := JStr "Guest asks for a refund."]>
      (<["issueType" := JStr "Refund"]> {["bookingTotal" := JNum 560]}) in
  (Spec.short_notes_or_empty_issue short
   /\ exists r,
       Part001.analyze (Sample.engine "{}") ES_JSON_parse Sample.prompt
                       Sample.library_message short = (r, [])
       /\ Spec.error_response r)
  /\ (exists total refunded,
        AnalyzeSchema_parse (Some (JObj props))
        = inr (mkInput "Guest asks for a refund." "Refund" total refunded 15 20))
  /\ AnalyzeSchema_parse (Some (JObj props))
     = AnalyzeSchema_parse
         (Some (JObj (<["encouragedRefundCapPercent" := JNum 15]> props))).
Proof.
  intros short props.
  assert (H : Spec.short_notes_or_empty_issue short).
  { left. exists "short". split; [reflexivity | simpl; lia]. }
  split; [split; [exact H|]|split].
  - exact (proj1 (proj1 (invalid_request_never_reaches_engine
                           (Sample.engine "{}") ES_JSON_parse Sample.prompt
                           Sample.library_message short) H)).
  - apply (proj1 (proj2 (proj2 (invalid_request_never_reaches_engine
                                  (Sample.engine "{}") ES_JSON_parse Sample.prompt
                                  Sample.library_message (Some (JObj props)))))
             props "Guest asks for a refund." "Refund" eq_refl).
    + reflexivity.
    + simpl. lia.
    + reflexivity.
    + discriminate.
    + right. right. exists 560%float. split; reflexivity.
    + left. reflexivity.
    + reflexivity.
    + reflexivity.
  - apply (proj1 (proj2 (proj2 (proj2 (invalid_request_never_reaches_engine
                                  (Sample.engine "{}") ES_JSON_parse Sample.prompt
                                  Sample.library_message (Some (JObj props)))))
                    props eq_refl)).
    reflexivity.
Defined.

Section EngineFacts.

Variable fetch : string -> FetchResult.
Variable JSON_parse : JSON -> Exn + JSON.

(** What [generateText] does, by the answer of the engine. *)
Lemma generateText_rejected (prompt : string) (e : Exn) :
  fetch prompt = Rejected e ->
  generateText fetch JSON_parse prompt = (inl e, [prompt]).
Proof. intros H. unfold generateText. rewrite H. reflexivity. Qed.

Lemma generateText_not_ok (prompt raw : string) :
  fetch prompt = Response false raw ->
  generateText fetch JSON_parse prompt = (inl (Error raw), [prompt]).
Proof. intros H. unfold generateText. rewrite H. reflexivity. Qed.

Lemma generateText_unreadable (prompt raw : string) (e : Exn) :
  fetch prompt = Response true raw ->
  JSON_parse (JStr raw) = inl e ->
  generateText fetch JSON_parse prompt = (inl e, [prompt]).
Proof. intros H E. unfold generateText. rewrite H. simpl. rewrite E. reflexivity. Qed.

Lemma generateText_empty (prompt raw : string) (json : JSON) :
  fetch prompt = Response true raw ->
  JSON_parse (JStr raw) = inr json ->
  JS.truthy (modelText json) = false ->
  generateText fetch JSON_parse prompt
  = (inl (Error "No model text returned"), [prompt]).
Proof.
  intros H E T. unfold generateText. rewrite H. simpl. rewrite E. simpl.
  rewrite T. reflexivity.
Qed.

Lemma generateText_text (prompt raw : string) (json : JSON) :
  fetch prompt = Response true raw ->
  JSON_parse (JStr raw) = inr json ->
  JS.truthy (modelText json) = true ->
  generateText fetch JSON_parse prompt = (inr (modelText json), [prompt]).
Proof.
  intros H E T. unfold generateText. rewrite H. simpl. rewrite E. simpl.
  rewrite T. reflexivity.
Qed.

End EngineFacts.

Section ResponseFacts.

Variable fetch : string -> FetchResult.
Variable JSON_parse : JSON -> Exn + JSON.
Variable buildPrompt : Input -> string.
Variable library_message : Exn -> string.

Lemma Part001_valid (body : option JSON) (input : Input) :
  AnalyzeSchema_parse body = inr input ->
  Part001.analyze_try fetch JSON_parse buildPrompt body
  = match Part001.geminiGenerateJson fetch JSON_parse (buildPrompt input) with
    | (inl e, sent) => (inl e, sent)
    | (inr data, sent) => (inr (merged input data), sent)
    end.
Proof.
  intros H. unfold Part001.analyze_try. rewrite H. simpl.
  destruct (Part001.geminiGenerateJson _ _ _) as [[e|data] sent]; simpl;
    by rewrite ?app_nil_r.
Qed.

Lemma ServerJs_valid (body : option JSON) (input : Input) :
  AnalyzeSchema_parse body = inr input ->
  ServerJs.analyze_try fetch JSON_parse buildPrompt body
  = ServerJs.geminiGenerateJson fetch JSON_parse (buildPrompt input).
Proof.
  intros H. unfold ServerJs.analyze_try. rewrite H. simpl.
  destruct (ServerJs.geminiGenerateJson _ _ _) as [[e|data] sent]; simpl;
    by rewrite ?app_nil_r.
Qed.

Lemma Part001_failure_throws (body : option JSON) :
  Spec.Failure fetch JSON_parse (Part001.parseModelText JSON_parse) buildPrompt body ->
  exists e sent, Part001.analyze_try fetch JSON_parse buildPrompt body = (inl e, sent).
Proof.
  intros [e E|input e E H|input raw E H|input raw e E H P
         |input raw json E H P T|input raw json e E H P T Q];
    [rewrite (Part001_invalid _ _ _ _ _ E); eauto|..];
    rewrite (Part001_valid _ _ E); unfold Part001.geminiGenerateJson.
  - rewrite (generateText_rejected _ _ _ _ H). eauto.
  - rewrite (generateText_not_ok _ _ _ _ H). eauto.
  - rewrite (generateText_unreadable _ _ _ _ _ H P). eauto.
  - rewrite (generateText_empty _ _ _ _ _ H P T). eauto.
  - rewrite (generateText_text _ _ _ _ _ H P T). simpl. rewrite Q. eauto.
Qed.

Lemma ServerJs_failure_throws (body : option JSON) :
  Spec.Failure fetch JSON_parse (ServerJs.parseModelText JSON_parse) buildPrompt body ->
  exists e sent, ServerJs.analyze_try fetch JSON_parse buildPrompt body = (inl e, sent).
Proof.
  intros [e E|input e E H|input raw E H|input raw e E H P
         |input raw json E H P T|input raw json e E H P T Q];
    [rewrite (ServerJs_invalid _ _ _ _ _ E); eauto|..];
    rewrite (ServerJs_valid _ _ E); unfold ServerJs.geminiGenerateJson.
  - rewrite (generateText_rejected _ _ _ _ H). eauto.
  - rewrite (generateText_not_ok _ _ _ _ H). eauto.
  - rewrite (generateText_unreadable _ _ _ _ _ H P). eauto.
  - rewrite (generateText_empty _ _ _ _ _ H P T). eauto.
  - rewrite (generateText_text _ _ _ _ _ H P T). simpl. rewrite Q. eauto.
Qed.

Lemma Part001_completed (body : option JSON) (input : Input) (data : JSON) :
  Spec.Completed fetch JSON_parse (Part001.parseModelText JSON_parse) buildPrompt
                 body input data ->
  Part001.analyze fetch JSON_parse buildPrompt library_message body
  = (mkResponse 200 (merged input data), [buildPrompt input]).
Proof.
  intros (E & raw & json & H & P & T & Q).
  unfold Part001.analyze. rewrite (Part001_valid _ _ E).
  unfold Part001.geminiGenerateJson.
  rewrite (generateText_text _ _ _ _ _ H P T). simpl. rewrite Q. reflexivity.
Qed.

Lemma ServerJs_completed (body : option JSON) (input : Input) (data : JSON) :
  Spec.Completed fetch JSON_parse (ServerJs.parseModelText JSON_parse) buildPrompt
                 body input data ->
  ServerJs.analyze fetch JSON_parse buildPrompt library_message body
  = (mkResponse 200 data, [buildPrompt input]).
Proof.
  intros (E & raw & json & H & P & T & Q).
  unfold ServerJs.analyze. rewrite (ServerJs_valid _ _ E).
  unfold ServerJs.geminiGenerateJson.
  rewrite (generateText_text _ _ _ _ _ H P T). simpl. rewrite Q. reflexivity.
Qed.

(** Every analysis either fails at one of the stages or completes. *)
Lemma failure_or_completed (parseModelText : JSON -> Exn + JSON) (body : option JSON) :
  Spec.Failure fetch JSON_parse parseModelText buildPrompt body
  \/ exists input data,
      Spec.Completed fetch JSON_parse parseModelText buildPrompt body input data.
Proof.
  destruct (AnalyzeSchema_parse body) as [e|input] eqn:E;
    [left; by eapply Spec.validation_failed|].
  destruct (fetch (buildPrompt input)) as [e|[|] raw] eqn:H;
    [left; by eapply Spec.transport_rejected| |left; by eapply Spec.transport_not_ok].
  destruct (JSON_parse (JStr raw)) as [e|json] eqn:P;
    [left; by eapply Spec.transport_unreadable|].
  destruct (JS.truthy (modelText json)) eqn:T;
    [|left; by eapply Spec.empty_output].
  destruct (parseModelText (modelText json)) as [e|data] eqn:Q;
    [left; by eapply Spec.malformed_output|].
  right. exists input, data. split; [assumption|]. by exists raw, json.
Qed.

End ResponseFacts.

(** C8. In both server files, an analysis that fails at any stage
    (validation, engine transport, empty engine output, malformed engine
    output) is answered with status 400 and a JSON object whose only
    property is the text [error]; every analysis either fails at one of
    these stages or completes, and only a completed one is answered with
    an analysis result, the whole of it. *)
Theorem failure_returns_single_error
    (fetch : string -> FetchResult) (JSON_parse : JSON -> Exn + JSON)
    (buildPrompt : Input -> string) (library_message : Exn -> string)
    (body : option JSON) :
  let part001 := Part001.analyze fetch JSON_parse buildPrompt library_message body in
  let serverjs := ServerJs.analyze fetch JSON_parse buildPrompt library_message body in
  (Spec.Failure fetch JSON_parse (Part001.parseModelText JSON_parse) buildPrompt body ->
     Spec.error_response part001.1)
  /\ (Spec.Failure fetch JSON_parse (ServerJs.parseModelText JSON_parse) buildPrompt body ->
     Spec.error_response serverjs.1)
  /\ (Spec.error_response part001.1
      \/ exists input data,
          Spec.Completed fetch JSON_parse (Part001.parseModelText JSON_parse)
                         buildPrompt body input data
          /\ part001.1 = mkResponse 200 (merged input data))
  /\ (Spec.error_response serverjs.1
      \/ exists input data,
          Spec.Completed fetch JSON_parse (ServerJs.parseModelText JSON_parse)
                         buildPrompt body input data
          /\ serverjs.1 = mkResponse 200 data).
Proof.
  intros part001 serverjs.
  assert (P1 : Spec.Failure fetch JSON_parse (Part001.parseModelText JSON_parse)
                 buildPrompt body -> Spec.error_response part001.1).
  { intros F. destruct (Part001_failure_throws _ _ _ _ F) as (e & sent & E).
    subst part001. unfold Part001.analyze. rewrite E. apply respond_error. }
  assert (P2 : Spec.Failure fetch JSON_parse (ServerJs.parseModelText JSON_parse)
                 buildPrompt body -> Spec.error_response serverjs.1).
  { intros F. destruct (ServerJs_failure_throws _ _ _ _ F) as (e & sent & E).
    subst serverjs. unfold ServerJs.analyze. rewrite E. apply respond_error. }
  split; [exact P1|]. split; [exact P2|]. split.
  - destruct (failure_or_completed fetch JSON_parse buildPrompt
                (Part001.parseModelText JSON_parse) body) as [F|(input & data & C)];
      [left; by apply P1|].
    right. exists input, data. split; [assumption|].
    subst part001. by rewrite (Part001_completed _ _ _ library_message _ _ _ C).
  - destruct (failure_or_completed fetch JSON_parse buildPrompt
                (ServerJs.parseModelText JSON_parse) body) as [F|(input & data & C)];
      [left; by apply P2|].
    right. exists input, data. split; [assumption|].
    subst serverjs. by rewrite (ServerJs_completed _ _ _ library_message _ _ _ C).
Qed.

Lemma failure_returns_single_error_witness :
  Spec.error_response
    (Part001.analyze (Sample.engine "I cannot share an assessment.") ES_JSON_parse
                     Sample.prompt Sample.library_message
                     (App.request_body (Sample.form "100" "25"))).1.
Proof.
  apply (proj1 (failure_returns_single_error
                  (Sample.engine "I cannot share an assessment.") ES_JSON_parse
                  Sample.prompt Sample.library_message
                  (App.request_body (Sample.form "100" "25")))).
  eapply Spec.malformed_output; [vm_compute; reflexivity ..].
Defined.

(** ** 4.3 The engine client *)

Lemma find_last_bound (c : ascii) (needle s : string) (k j : nat) :
  Str.find_last (String c needle) s k = Some j -> k <= j < k + String.length s.
Proof.
  revert k. induction s as [|a s IH]; intros k; simpl; [discriminate|].
  destruct (Str.find_last (String c needle) s (S k)) as [j'|] eqn:E.
  - intros [= <-]. apply IH in E. lia.
  - destruct (_ : bool); [|discriminate]. intros [= <-]. lia.
Qed.

Lemma brace_span_string (text : string) :
  brace_span (JStr text)
  = match Spec.brace_substring text with
    | Some span => inr (JStr span)
    | None => inl (Error "Model did not return JSON")
    end.
Proof.
  unfold brace_span, Spec.brace_substring, Str.indexOf, Str.lastIndexOf.
  destruct (Str.find_first "{" text 0) as [i|]; [|reflexivity].
  destruct (Str.find_last "}" text 0) as [j|] eqn:Ej; simpl.
  2:{ replace (Z.of_nat i =? -1)%Z with false by (symmetry; apply Z.eqb_neq; lia).
      reflexivity. }
  apply find_last_bound in Ej.
  replace (Z.of_nat i =? -1)%Z with false by (symmetry; apply Z.eqb_neq; lia).
  replace (Z.of_nat j =? -1)%Z with false by (symmetry; apply Z.eqb_neq; lia).
  simpl. destruct (Nat.ltb_spec i j) as [Hlt|Hge].
  - replace (Z.of_nat j <=? Z.of_nat i)%Z with false by (symmetry; apply Z.leb_gt; lia).
    unfold Str.slice, Str.relative.
    replace (Z.of_nat i <? 0)%Z with false by (symmetry; apply Z.ltb_ge; lia).
    replace (Z.of_nat j + 1 <? 0)%Z with false by (symmetry; apply Z.ltb_ge; lia).
    rewrite Nat2Z.id.
    replace (Z.to_nat (Z.of_nat j + 1)) with (j + 1)%nat by lia.
    rewrite !Nat.min_l by lia. reflexivity.
  - replace (Z.of_nat j <=? Z.of_nat i)%Z with true by (symmetry; apply Z.leb_le; lia).
    reflexivity.
Qed.

Lemma ServerJs_parseModelText_string (JSON_parse : JSON -> Exn + JSON) (text : string) :
  ServerJs.parseModelText JSON_parse (JStr text)
  = Spec.strict_then_brace_span JSON_parse text.
Proof.
  unfold ServerJs.parseModelText, Spec.strict_then_brace_span.
  rewrite brace_span_string.
  destruct (JSON_parse (JStr text)); [|reflexivity].
  destruct (Spec.brace_substring text); reflexivity.
Qed.

(** C5, as stated, fails for [src/unnamed/part_001]: for an engine text
    that wraps a JSON object in prose, the strict parse fails and
    [geminiGenerateJson] throws, although the span from the first opening
    to the last closing brace parses (and [src/server/server.js] returns
    it). *)
Lemma part_001_has_no_brace_fallback :
  let text := "Here is the assessment: {} I hope it helps." in
  let engine := Sample.engine text in
  Spec.strict_then_brace_span ES_JSON_parse text = inr (JObj ∅)
  /\ ServerJs.geminiGenerateJson engine ES_JSON_parse "prompt" = (inr (JObj ∅), ["prompt"])
  /\ Part001.geminiGenerateJson engine ES_JSON_parse "prompt"
     = (inl (SyntaxError text), ["prompt"]).
Proof. vm_compute. repeat split. Qed.

(** Scenario E of the specification, on [src/server/server.js]: prose
    around a JSON object is recovered from, prose without braces is not. *)
Example scenario_E :
  (exists data,
      ServerJs.geminiGenerateJson
        (Sample.engine "Assessment follows. {\'risk_level\': \'low\'} End.")
        ES_JSON_parse "prompt" = (inr (JObj data), ["prompt"])
      /\ data !! "risk_level" = Some (JStr "low"))
  /\ ServerJs.geminiGenerateJson (Sample.engine "I cannot assess this case.")
       ES_JSON_parse "prompt"
     = (inl (Error "Model did not return JSON"), ["prompt"]).
Proof. vm_compute. split; [eexists; split|]; reflexivity. Qed.

(** C5, amended. On a successful transport response whose engine text is
    a non-empty string, [geminiGenerateJson] of [src/server/server.js]
    first parses the whole text strictly; if that fails it parses the
    substring from the first opening brace to the last closing brace; if
    there is no such pair it throws "Model did not return JSON", and if
    the parse of the substring fails it throws that parse error; in these
    cases there is no result.  [geminiGenerateJson] of
    [src/unnamed/part_001] only parses the whole text strictly and throws
    when that fails.  Either sends the engine one request. *)
Theorem geminiGenerateJson_parses_engine_text
    (fetch : string -> FetchResult) (JSON_parse : JSON -> Exn + JSON)
    (prompt raw : string) (json : JSON) (text : string) :
  fetch prompt = Response true raw ->
  JSON_parse (JStr raw) = inr json ->
  modelText json = JStr text ->
  text <> "" ->
  ServerJs.geminiGenerateJson fetch JSON_parse prompt
  = (Spec.strict_then_brace_span JSON_parse text, [prompt])
  /\ Part001.geminiGenerateJson fetch JSON_parse prompt
     = (JSON_parse (JStr text), [prompt])
  /\ (forall v, JSON_parse (JStr text) = inr v ->
        Spec.strict_then_brace_span JSON_parse text = inr v)
  /\ (forall e, JSON_parse (JStr text) = inl e ->
        Spec.strict_then_brace_span JSON_parse text
        = match Spec.brace_substring text with
          | Some span => JSON_parse (JStr span)
          | None => inl (Error "Model did not return JSON")
          end).
Proof.
  intros H P T Hne.
  assert (Ht : JS.truthy (modelText json) = true).
  { rewrite T. simpl. apply negb_true_iff. by apply String.eqb_neq. }
  unfold ServerJs.geminiGenerateJson, Part001.geminiGenerateJson.
  rewrite (generateText_text _ _ _ _ _ H P Ht), T. simpl.
  rewrite ServerJs_parseModelText_string.
  repeat split.
  - intros v E. unfold Spec.strict_then_brace_span. by rewrite E.
  - intros e E. unfold Spec.strict_then_brace_span. by rewrite E.
Qed.

Lemma geminiGenerateJson_parses_engine_text_witness :
  let engine :=
    Sample.engine "Sure. {\'risk_score\': 72, \'risk_level\': \'high\'} Done." in
  let text := JSONText.quoted "Sure. {'risk_score': 72, 'risk_level': 'high'} Done." in
  ServerJs.geminiGenerateJson engine ES_JSON_parse "prompt"
  = (Spec.strict_then_brace_span ES_JSON_parse text, ["prompt"])
  /\ exists data, Spec.strict_then_brace_span ES_JSON_parse text = inr (JObj data)
                  /\ data !! "risk_score" = Some (JNum 72).
Proof.
  intros engine text. split.
  - refine (proj1 (geminiGenerateJson_parses_engine_text
                     engine ES_JSON_parse "prompt" _ _ text eq_refl _ _ _)).
    + vm_compute. reflexivity.
    + vm_compute. reflexivity.
    + vm_compute. discriminate.
  - vm_compute. eexists. split; reflexivity.
Defined.

(** ** 4.6 The client's refund percent *)

Section ZeroFacts.

Local Open Scope float_scope.

Lemma eqb_zero_spec (y : float) :
  (y =? 0) = true -> exists s, Prim2SF y = S754_zero s.
Proof.
  rewrite FloatAxioms.eqb_spec.
  change (Prim2SF 0) with (S754_zero false). unfold SFeqb.
  destruct (Prim2SF y) as [s|s| |s m e]; simpl; try discriminate; eauto.
  - destruct s; discriminate.
  - destruct s; discriminate.
Qed.

Lemma zero_eqb_zero (a b : float) (s t : bool) :
  Prim2SF a = S754_zero s -> Prim2SF b = S754_zero t -> (a =? b) = true.
Proof. intros Ha Hb. rewrite FloatAxioms.eqb_spec, Ha, Hb. reflexivity. Qed.

Lemma zero_percent (y x : float) (s : bool) :
  Prim2SF y = S754_zero s ->
  PrimFloat.is_nan x = false -> (x =? 0) = false ->
  exists t, Prim2SF ((y / x) * 100) = S754_zero t.
Proof.
  intros Hy Hnan Hz.
  assert (Hx : exists sx, Prim2SF x = S754_infinity sx
                          \/ exists m e, Prim2SF x = S754_finite sx m e).
  { unfold PrimFloat.is_nan in Hnan. apply negb_false_iff in Hnan.
    rewrite FloatAxioms.eqb_spec in Hnan, Hz.
    change (Prim2SF 0) with (S754_zero false) in Hz.
    destruct (Prim2SF x) as [sx|sx| |sx m e]; simpl in *; try discriminate; eauto. }
  destruct Hx as (sx & Hx).
  assert (Hq : Prim2SF (y / x) = S754_zero (xorb s sx)).
  { rewrite FloatAxioms.div_spec, Hy.
    destruct Hx as [->|(m & e & ->)]; reflexivity. }
  exists (xorb (xorb s sx) false).
  rewrite FloatAxioms.mul_spec, Hq. reflexivity.
Qed.

End ZeroFacts.

Lemma is_finite_not_nan (x : float) :
  PrimFloat.is_finite x = true -> PrimFloat.is_nan x = false.
Proof.
  unfold PrimFloat.is_finite. intros H. apply negb_true_iff in H.
  by apply orb_false_iff in H as [H _].
Qed.

Lemma received_spec (text : string) :
  Spec.received text
  = if String.eqb text "" then NumNull
    else let x := StringToNumber.Number text in
         if PrimFloat.is_finite x then Num (if (x =? 0)%float then 0%float else x)
         else NumNull.
Proof.
  unfold Spec.received, App.number_or_null.
  destruct (String.eqb text ""); simpl; [reflexivity|].
  unfold wire_number. by destruct (PrimFloat.is_finite _).
Qed.

Lemma received_schema_number (text : string) : Spec.schema_number (Spec.received text).
Proof.
  rewrite received_spec. destruct (String.eqb text ""); simpl; [exact I|].
  destruct (PrimFloat.is_finite _) eqn:F; simpl; [|exact I].
  destruct (_ =? 0)%float; [reflexivity | by apply is_finite_not_nan].
Qed.

Lemma wire_number_or_null (text : string) :
  Some (wire (App.number_or_null text)) = JS.of_OptNum (Spec.received text).
Proof.
  unfold Spec.received, App.number_or_null.
  destruct (String.eqb text ""); simpl; [reflexivity|].
  unfold wire_number. by destruct (PrimFloat.is_finite _).
Qed.

Lemma schema_reads_number (v : OptNum) :
  Spec.schema_number v -> z.number_nullable_optional (JS.of_OptNum v) = Some v.
Proof. destruct v as [| |x]; simpl; try reflexivity. by intros ->. Qed.

Lemma request_body_props (st : App.State) :
  exists props,
    App.request_body st = Some (JObj props)
    /\ props !! "rawNotes" = Some (JStr (App.rawNotes st))
    /\ props !! "issueType" = Some (JStr (App.issueType st))
    /\ props !! "bookingTotal" = JS.of_OptNum (Spec.received (App.bookingTotal st))
    /\ props !! "refundedAmount" = JS.of_OptNum (Spec.received (App.refundedAmount st))
    /\ props !! "encouragedRefundCapPercent" = Some (JNum 15)
    /\ props !! "maxRefundCapPercent" = Some (JNum 20).
Proof.
  eexists. split; [reflexivity|].
  rewrite <- !wire_number_or_null.
  repeat split; rewrite lookup_fmap; by simplify_map_eq.
Qed.

(** The request that the client sends is read by the schema as the notes,
    the issue type, the two received numbers and the caps 15 and 20. *)
Lemma request_body_parsed (st : App.State) (input : Input) :
  AnalyzeSchema_parse (App.request_body st) = inr input ->
  bookingTotal input = Spec.received (App.bookingTotal st)
  /\ refundedAmount input = Spec.received (App.refundedAmount st).
Proof.
  destruct (request_body_props st) as (props & -> & Hn & Hi & Ht & Hr & He & Hm).
  unfold AnalyzeSchema_parse. rewrite Hn, Hi, Ht, Hr, He, Hm.
  rewrite !schema_reads_number by apply received_schema_number.
  change (z.number_default 15 (Some (JNum 15))) with (Some 15%float).
  change (z.number_default 20 (Some (JNum 20))) with (Some 20%float).
  destruct (z.string_min 10 _), (z.string_min 1 _);
    try discriminate; intros [= <-]; split; reflexivity.
Qed.

Lemma client_server_percent (total refunded : string) :
  refunded <> "" ->
  Spec.same_percent
    (App.refundPercent (App.mkState "" "" total refunded ""))
    (computeRefundPercent (Spec.received total) (Spec.received refunded)).
Proof.
  intros Hne. apply String.eqb_neq in Hne.
  unfold App.refundPercent, App.toNumber, computeRefundPercent.
  rewrite !received_spec, Hne. simpl.
  set (x := StringToNumber.Number total). set (y := StringToNumber.Number refunded).
  destruct (PrimFloat.is_finite x) eqn:Fx; simpl.
  2:{ destruct (String.eqb total ""); exact I. }
  destruct (String.eqb total "") eqn:Et; simpl.
  { apply String.eqb_eq in Et. subst x. rewrite Et. exact I. }
  destruct (x =? 0)%float eqn:Zx.
  { unfold JS.truthyNumber at 1. rewrite Zx, orb_true_r. exact I. }
  destruct (negb (JS.truthyNumber x) || (x <=? 0)%float) eqn:C; simpl; [exact I|].
  destruct (PrimFloat.is_finite y) eqn:Fy; simpl; [|exact I].
  destruct (y =? 0)%float eqn:Zy; [|by left].
  right.
  destruct (eqb_zero_spec y Zy) as [s Hy].
  destruct (zero_percent y x s Hy (is_finite_not_nan x Fx) Zx) as [t Ht].
  destruct (zero_percent 0 x false eq_refl (is_finite_not_nan x Fx) Zx) as [t' Ht'].
  exact (zero_eqb_zero _ _ _ _ Ht Ht').
Qed.

(** C9 does not hold of the code: with a booking total of 560 and the
    refunded amount left blank the client computes (and shows) 0 percent,
    [toNumber] reading the empty text as 0, while the request it sends
    carries [refundedAmount = null] and the server's
    [computeRefundPercent] is absent. *)
Lemma blank_refund_client_differs_from_server :
  let st := Sample.form "560" "" in
  App.refundPercent st = Some 0%float
  /\ exists input,
      AnalyzeSchema_parse (App.request_body st) = inr input
      /\ computeRefundPercent (bookingTotal input) (refundedAmount input) = None.
Proof. vm_compute. split; [reflexivity|]. eexists. split; reflexivity. Qed.

(** X20. The blank refunded amount is the only disagreement.  For every form
    whose refunded-amount text is not empty, when the request the client
    sends is accepted by the schema, the refund percent the client
    computes is the percentage that the server's [computeRefundPercent]
    gives for the booking total and the refunded amount it receives: both
    are absent, or they are the same number (a zero of either sign
    counting as the same zero). *)
Theorem client_percent_matches_server (st : App.State) (input : Input) :
  App.refundedAmount st <> "" ->
  AnalyzeSchema_parse (App.request_body st) = inr input ->
  Spec.same_percent
    (App.refundPercent st)
    (computeRefundPercent (bookingTotal input) (refundedAmount input)).
Proof.
  intros Hne Hparse.
  destruct (request_body_parsed st input Hparse) as [-> ->].
  exact (client_server_percent (App.bookingTotal st) (App.refundedAmount st) Hne).
Qed.

Lemma client_percent_matches_server_witness :
  let st := Sample.form "560" "85.06" in
  exists input,
    AnalyzeSchema_parse (App.request_body st) = inr input
    /\ Spec.same_percent
         (App.refundPercent st)
         (computeRefundPercent (bookingTotal input) (refundedAmount input)).
Proof.
  intros st.
  assert (H : exists input, AnalyzeSchema_parse (App.request_body st) = inr input).
  { vm_compute. eexists. reflexivity. }
  destruct H as [input H]. exists input. split; [exact H|].
  apply (client_percent_matches_server st input); [discriminate | exact H].
Defined.

(** C10. [toNumber] turns the empty text into 0, not null; so with a
    positive booking total and the refunded amount left blank the client
    computes a refund percent of 0 and shows "0.00%", while the payload
    carries [refundedAmount = null], which the server reads as a missing
    amount: its refund percent is absent.  The displayed and the
    server-side percentages differ for that form. *)
Theorem blank_refund_shown_as_zero_percent :
  App.toNumber "" = Num 0
  /\ (let st := Sample.form "100" "" in
      App.refundPercent st = Some 0%float
      /\ App.refundLabel st = Some "0.00%"
      /\ JS.field (Some (App.payload st)) "refundedAmount" = Some JNull
      /\ exists input,
          AnalyzeSchema_parse (App.request_body st) = inr input
          /\ bookingTotal input = Num 100
          /\ refundedAmount input = NumNull
          /\ refundPercent input = None
          /\ softCapExceeded input = false).
Proof.
  vm_compute. repeat split. eexists. repeat split.
Qed.

(** * Further properties of the server files and of the client *)

(** ** Request validation *)

Lemma parse_fields (props : gmap string JSON) (input : Input) :
  AnalyzeSchema_parse (Some (JObj props)) = inr input ->
  z.string_min 10 (props !! "rawNotes") = Some (rawNotes input)
  /\ z.string_min 1 (props !! "issueType") = Some (issueType input)
  /\ z.number_nullable_optional (props !! "bookingTotal") = Some (bookingTotal input)
  /\ z.number_nullable_optional (props !! "refundedAmount") = Some (refundedAmount input)
  /\ z.number_default 15 (props !! "encouragedRefundCapPercent")
     = Some (encouragedRefundCapPercent input)
  /\ z.number_default 20 (props !! "maxRefundCapPercent")
     = Some (maxRefundCapPercent input).
Proof.
  unfold AnalyzeSchema_parse.
  destruct (z.string_min 10 _), (z.string_min 1 _),
    (z.number_nullable_optional (props !! "bookingTotal")),
    (z.number_nullable_optional (props !! "refundedAmount")),
    (z.number_default 15 _), (z.number_default 20 _); try discriminate.
  intros [= <-]. repeat split.
Qed.

Lemma string_min_spec (n : nat) (v : option JSON) (s : string) :
  z.string_min n v = Some s <-> v = Some (JStr s) /\ n <= String.length s.
Proof.
  unfold z.string_min. split.
  - destruct v as [[| | |t| |]|]; try discriminate.
    destruct (Nat.leb_spec n (String.length t)); [|discriminate].
    by intros [= <-].
  - intros [-> H]. apply Nat.leb_le in H. by rewrite H.
Qed.

Lemma number_not_nan (v : option JSON) (x : float) :
  z.number v = Some x -> PrimFloat.is_nan x = false.
Proof.
  unfold z.number. destruct v as [[| |y| | |]|]; try discriminate.
  destruct (PrimFloat.is_nan y) eqn:E; [discriminate|]. by intros [= <-].
Qed.

Lemma number_default_not_nan (d : float) (v : option JSON) (x : float) :
  PrimFloat.is_nan d = false ->
  z.number_default d v = Some x -> PrimFloat.is_nan x = false.
Proof.
  intros Hd. unfold z.number_default.
  destruct v; [apply number_not_nan|]. by intros [= <-].
Qed.

Lemma number_nullable_optional_schema (v : option JSON) (t : OptNum) :
  z.number_nullable_optional v = Some t -> Spec.schema_number t.
Proof.
  unfold z.number_nullable_optional.
  destruct v as [[| |y| | |]|]; try (by intros [= <-]);
    try (unfold z.number; discriminate).
  destruct (z.number (Some (JNum y))) as [x|] eqn:E; [|discriminate].
  intros [= <-]. by apply number_not_nan in E.
Qed.

(** X1. A request that [AnalyzeSchema.parse] accepts has notes of at least
    10 characters and a non-empty issue type, both taken unchanged from
    the body, and numbers that are not NaN: a booking total and a refunded
    amount that are such a number, null or undefined, and two caps that
    are such numbers. *)
Theorem validated_input_invariant (body : option JSON) (input : Input) :
  AnalyzeSchema_parse body = inr input ->
  JS.field body "rawNotes" = Some (JStr (rawNotes input))
  /\ JS.field body "issueType" = Some (JStr (issueType input))
  /\ 10 <= String.length (rawNotes input)
  /\ issueType input <> ""
  /\ Spec.schema_number (bookingTotal input)
  /\ Spec.schema_number (refundedAmount input)
  /\ PrimFloat.is_nan (encouragedRefundCapPercent input) = false
  /\ PrimFloat.is_nan (maxRefundCapPercent input) = false.
Proof.
  destruct body as [[|b0|x0|s0|l0|props]|]; try discriminate.
  intros H. apply parse_fields in H as (Hn & Hi & Ht & Hr & He & Hm).
  apply string_min_spec in Hn as [Hn Hnl]. apply string_min_spec in Hi as [Hi Hil].
  repeat split; try assumption.
  - intros E. rewrite E in Hil. simpl in Hil. lia.
  - by apply number_nullable_optional_schema in Ht.
  - by apply number_nullable_optional_schema in Hr.
  - by apply (number_default_not_nan 15%float _ _ eq_refl He).
  - by apply (number_default_not_nan 20%float _ _ eq_refl Hm).
Qed.

Lemma validated_input_invariant_witness :
  exists input,
    AnalyzeSchema_parse (App.request_body (Sample.form "560" "85.06")) = inr input
    /\ 10 <= String.length (rawNotes input)
    /\ Spec.schema_number (bookingTotal input).
Proof.
  assert (H : exists input,
             AnalyzeSchema_parse (App.request_body (Sample.form "560" "85.06"))
             = inr input) by (vm_compute; eexists; reflexivity).
  destruct H as [input H]. exists input.
  destruct (validated_input_invariant _ _ H) as (_ & _ & H3 & _ & H5 & _).
  repeat split; assumption.
Defined.

(** X2. The request the client sends is accepted by the schema exactly
    when the notes have at least 10 characters and the issue type is not
    empty; the validated request then holds the notes, the issue type, the
    two numbers as received and the caps 15 and 20. *)
Theorem client_request_accepted_iff (st : App.State) :
  (10 <= String.length (App.rawNotes st) /\ App.issueType st <> "" ->
     AnalyzeSchema_parse (App.request_body st)
     = inr (mkInput (App.rawNotes st) (App.issueType st)
                    (Spec.received (App.bookingTotal st))
                    (Spec.received (App.refundedAmount st)) 15 20))
  /\ ((exists input, AnalyzeSchema_parse (App.request_body st) = inr input) ->
      10 <= String.length (App.rawNotes st) /\ App.issueType st <> "").
Proof.
  destruct (request_body_props st) as (props & Hb & Hn & Hi & Ht & Hr & He & Hm).
  split.
  - intros [Hlen Hne]. rewrite Hb. unfold AnalyzeSchema_parse.
    rewrite Hn, Hi, Ht, Hr, He, Hm.
    rewrite !schema_reads_number by apply received_schema_number.
    rewrite (proj2 (string_min_spec 10 _ _) (conj eq_refl Hlen)).
    assert (Hil : 1 <= String.length (App.issueType st)).
    { destruct (App.issueType st); [done | simpl; lia]. }
    rewrite (proj2 (string_min_spec 1 _ _) (conj eq_refl Hil)).
    reflexivity.
  - intros [input H]. rewrite Hb in H.
    apply parse_fields in H as (H1 & H2 & _).
    apply string_min_spec in H1 as [H1 Hlen]. apply string_min_spec in H2 as [H2 Hil].
    rewrite Hn in H1. rewrite Hi in H2.
    injection H1 as H1. injection H2 as H2. rewrite H1, H2. split; [assumption|].
    intros E. rewrite E in Hil. simpl in Hil. lia.
Qed.

(** ** The analysis endpoint *)

Section EndpointExtras.

Variable fetch : string -> FetchResult.
Variable JSON_parse : JSON -> Exn + JSON.
Variable buildPrompt : Input -> string.
Variable library_message : Exn -> string.

Lemma generateText_sent (prompt : string) :
  (generateText fetch JSON_parse prompt).2 = [prompt].
Proof.
  unfold generateText.
  destruct (fetch prompt) as [e|[|] raw]; simpl; try reflexivity.
  destruct (JSON_parse (JStr raw)) as [e|json]; simpl; try reflexivity.
  by destruct (JS.truthy (modelText json)).
Qed.

Lemma attempt_sent (parseModelText : JSON -> Exn + JSON) (prompt : string) :
  (bind (generateText fetch JSON_parse prompt)
        (fun text => lift (parseModelText text))).2 = [prompt].
Proof.
  pose proof (generateText_sent prompt) as H.
  destruct (generateText fetch JSON_parse prompt) as [[e|text] sent];
    simpl in *; subst; reflexivity.
Qed.

(** X3. A request that passes validation makes exactly one request to the
    engine, carrying the prompt built from the validated request, whatever
    the engine answers and whether or not the analysis then succeeds: there
    is no retry.  This holds in both server files. *)
Theorem validated_request_calls_engine_once (body : option JSON) (input : Input) :
  AnalyzeSchema_parse body = inr input ->
  (Part001.analyze fetch JSON_parse buildPrompt library_message body).2
  = [buildPrompt input]
  /\ (ServerJs.analyze fetch JSON_parse buildPrompt library_message body).2
     = [buildPrompt input].
Proof.
  intros H. split.
  - unfold Part001.analyze. rewrite (Part001_valid _ _ _ _ _ H).
    pose proof (attempt_sent (Part001.parseModelText JSON_parse) (buildPrompt input)) as S.
    unfold Part001.geminiGenerateJson.
    destruct (bind _ _) as [[e|data] sent]; simpl in *; by subst.
  - unfold ServerJs.analyze. rewrite (ServerJs_valid _ _ _ _ _ H).
    pose proof (attempt_sent (ServerJs.parseModelText JSON_parse) (buildPrompt input)) as S.
    unfold ServerJs.geminiGenerateJson.
    destruct (bind _ _) as [[e|data] sent]; simpl in *; by subst.
Qed.

(** X4. When the engine answers a validated request with a response that
    is not a success, the caller gets status 400 and an [error] that is the
    raw body of the engine's response, unchanged (both server files). *)
Theorem upstream_error_is_passed_on (body : option JSON) (input : Input) (raw : string) :
  AnalyzeSchema_parse body = inr input ->
  fetch (buildPrompt input) = Response false raw ->
  Part001.analyze fetch JSON_parse buildPrompt library_message body
  = (mkResponse 400 (JObj {["error" := JStr raw]}), [buildPrompt input])
  /\ ServerJs.analyze fetch JSON_parse buildPrompt library_message body
     = (mkResponse 400 (JObj {["error" := JStr raw]}), [buildPrompt input]).
Proof.
  intros H F. split.
  - unfold Part001.analyze. rewrite (Part001_valid _ _ _ _ _ H).
    unfold Part001.geminiGenerateJson.
    by rewrite (generateText_not_ok _ _ _ _ F).
  - unfold ServerJs.analyze. rewrite (ServerJs_valid _ _ _ _ _ H).
    unfold ServerJs.geminiGenerateJson.
    by rewrite (generateText_not_ok _ _ _ _ F).
Qed.

Lemma no_text_is_empty (json : JSON) :
  JS.at_index (JS.field (Some json) "candidates") 0 = None
  \/ (exists candidate,
        JS.at_index (JS.field (Some json) "candidates") 0 = Some candidate
        /\ JS.at_index (JS.field (JS.field (Some candidate) "content") "parts") 0 = None) ->
  modelText json = JStr "".
Proof.
  unfold modelText. intros [->|(c & -> & ->)]; reflexivity.
Qed.

(** X5. When the engine's successful response has no first candidate
    ([candidates] is missing, is not an array or is empty), or the first
    candidate has no first part, a validated request is answered with
    status 400 and the error "No model text returned" (both server
    files). *)
Theorem no_candidate_text_is_an_error
    (body : option JSON) (input : Input) (raw : string) (json : JSON) :
  AnalyzeSchema_parse body = inr input ->
  fetch (buildPrompt input) = Response true raw ->
  JSON_parse (JStr raw) = inr json ->
  JS.at_index (JS.field (Some json) "candidates") 0 = None
  \/ (exists candidate,
        JS.at_index (JS.field (Some json) "candidates") 0 = Some candidate
        /\ JS.at_index (JS.field (JS.field (Some candidate) "content") "parts") 0 = None) ->
  Part001.analyze fetch JSON_parse buildPrompt library_message body
  = (mkResponse 400 (JObj {["error" := JStr "No model text returned"]}),
     [buildPrompt input])
  /\ ServerJs.analyze fetch JSON_parse buildPrompt library_message body
     = (mkResponse 400 (JObj {["error" := JStr "No model text returned"]}),
        [buildPrompt input]).
Proof.
  intros H F P C.
  assert (T : JS.truthy (modelText json) = false)
    by (by rewrite (no_text_is_empty json C)).
  split.
  - unfold Part001.analyze. rewrite (Part001_valid _ _ _ _ _ H).
    unfold Part001.geminiGenerateJson.
    by rewrite (generateText_empty _ _ _ _ _ F P T).
  - unfold ServerJs.analyze. rewrite (ServerJs_valid _ _ _ _ _ H).
    unfold ServerJs.geminiGenerateJson.
    by rewrite (generateText_empty _ _ _ _ _ F P T).
Qed.

End EndpointExtras.

Lemma validated_request_calls_engine_once_witness :
  let body := App.request_body (Sample.form "560" "85.06") in
  exists input,
    AnalyzeSchema_parse body = inr input
    /\ (Part001.analyze (fun _ => Rejected (TypeError "fetch failed")) ES_JSON_parse
          Part001_buildPrompt Sample.library_message body).2
       = [Part001_buildPrompt input].
Proof.
  intros body.
  assert (H : exists input, AnalyzeSchema_parse body = inr input)
    by (vm_compute; eexists; reflexivity).
  destruct H as [input H]. exists input. split; [exact H|].
  exact (proj1 (validated_request_calls_engine_once
                  (fun _ => Rejected (TypeError "fetch failed")) ES_JSON_parse
                  Part001_buildPrompt Sample.library_message body input H)).
Defined.

Lemma upstream_error_is_passed_on_witness :
  let body := App.request_body (Sample.form "560" "85.06") in
  let engine := fun _ : string => Response false "quota exceeded" in
  (Part001.analyze engine ES_JSON_parse Part001_buildPrompt Sample.library_message body).1
  = mkResponse 400 (JObj {["error" := JStr "quota exceeded"]}).
Proof.
  intros body engine.
  assert (H : exists input, AnalyzeSchema_parse body = inr input)
    by (vm_compute; eexists; reflexivity).
  destruct H as [input H].
  rewrite (proj1 (upstream_error_is_passed_on engine ES_JSON_parse Part001_buildPrompt
                    Sample.library_message body input "quota exceeded" H eq_refl)).
  reflexivity.
Defined.

Lemma no_candidate_text_is_an_error_witness :
  let body := App.request_body (Sample.form "560" "85.06") in
  let engine := fun _ : string => Response true "{}" in
  (ServerJs.analyze engine ES_JSON_parse ServerJs_buildPrompt Sample.library_message body).1
  = mkResponse 400 (JObj {["error" := JStr "No model text returned"]}).
Proof.
  intros body engine.
  assert (H : exists input, AnalyzeSchema_parse body = inr input)
    by (vm_compute; eexists; reflexivity).
  destruct H as [input H].
  rewrite (proj2 (no_candidate_text_is_an_error engine ES_JSON_parse ServerJs_buildPrompt
                    Sample.library_message body input "{}" (JObj ∅) H eq_refl eq_refl
                    (or_introl eq_refl))).
  reflexivity.
Defined.

(** ** The reconciler *)

Lemma merged_policy_again (input : Input) (data : JSON) :
  merged_policy input (merged input data) = merged_policy input data.
Proof.
  unfold merged_policy at 1. unfold engine_policy.
  rewrite merged_policy_field. simpl.
  unfold merged_policy. rewrite <- (assoc_L (∪)). by rewrite (idemp_L (∪)).
Qed.

(** X6. Reconciling a reconciled result again, for the same request,
    changes nothing: the policy block and every other top-level field stay
    as they are. *)
Theorem merged_idempotent (input : Input) (data : JSON) :
  merged input (merged input data) = merged input data.
Proof.
  unfold merged at 1. rewrite merged_policy_again.
  unfold merged. simpl. by rewrite insert_insert_eq.
Qed.

Section ResponseShape.

Variable fetch : string -> FetchResult.
Variable JSON_parse : JSON -> Exn + JSON.
Variable buildPrompt : Input -> string.
Variable library_message : Exn -> string.

(** X7. Every answer of the endpoint of [src/unnamed/part_001] with
    status 200 has an object as its body, with a [policy] object that has
    the five calculated fields, whatever JSON value the engine's text was
    (an array, a number, [null]); when that value is an object, each of
    its properties other than [policy] is in the body unchanged. *)
Theorem success_response_shape (request : option JSON) :
  let response :=
    (Part001.analyze fetch JSON_parse buildPrompt library_message request).1 in
  status response = 200 ->
  exists props policy,
    body response = JObj props
    /\ props !! "policy" = Some (JObj policy)
    /\ (forall name, name ∈ Spec.policy_fields -> is_Some (policy !! name))
    /\ exists input data,
        Spec.Completed fetch JSON_parse (Part001.parseModelText JSON_parse)
                       buildPrompt request input data
        /\ forall engine_props name,
            data = JObj engine_props -> name <> "policy" ->
            props !! name = engine_props !! name.
Proof.
  intros response Hs.
  destruct (failure_or_completed fetch JSON_parse buildPrompt
              (Part001.parseModelText JSON_parse) request) as [F|(input & data & C)].
  { destruct (Part001_failure_throws _ _ _ _ F) as (e & sent & E).
    subst response. unfold Part001.analyze in Hs. rewrite E in Hs. discriminate Hs. }
  subst response. rewrite (Part001_completed _ _ _ library_message _ _ _ C). simpl.
  eexists _, (merged_policy input data). split; [reflexivity|].
  split; [by rewrite lookup_insert_eq|]. split.
  - intros name Hn. unfold merged_policy. apply lookup_union_is_Some. right.
    destruct (local_policy_lookup input) as (L1 & L2 & L3 & L4 & L5).
    unfold Spec.policy_fields in Hn.
    repeat (apply elem_of_cons in Hn as [->|Hn]); try (by apply elem_of_nil in Hn);
      eauto.
  - exists input, data. split; [exact C|].
    intros engine_props name -> Hn. by rewrite lookup_insert_ne.
Qed.

End ResponseShape.

Lemma success_response_shape_witness :
  let request := App.request_body (Sample.form "560" "85.06") in
  let response :=
    (Part001.analyze (Sample.engine "[1, 2]") ES_JSON_parse Part001_buildPrompt
                     Sample.library_message request).1 in
  status response = 200
  /\ exists props policy,
      body response = JObj props /\ props !! "policy" = Some (JObj policy).
Proof.
  intros request response.
  assert (Hs : status response = 200) by (vm_compute; reflexivity).
  split; [exact Hs|].
  destruct (success_response_shape (Sample.engine "[1, 2]") ES_JSON_parse
              Part001_buildPrompt Sample.library_message request Hs)
    as (props & policy & Hb & Hp & _).
  by exists props, policy.
Defined.

(** ** The brace span of the engine client *)

Lemma prefix_char (c : ascii) (s : string) :
  String.prefix (String c "") s = true <-> String.get 0 s = Some c.
Proof.
  destruct s as [|a s]; simpl; [split; discriminate|].
  destruct (ascii_dec c a) as [->|Hne].
  - split; [reflexivity|]. intros _. by destruct s.
  - split; [discriminate|]. intros [= ->]. by destruct Hne.
Qed.

Lemma find_first_char (c : ascii) (s : string) (k : nat) :
  match Str.find_first (String c "") s k with
  | Some i => exists n, i = k + n /\ String.get n s = Some c
                        /\ forall m, m < n -> String.get m s <> Some c
  | None => forall n, String.get n s <> Some c
  end.
Proof.
  revert k. induction s as [|a s IH]; intros k.
  - simpl. intros n. by destruct n.
  - cbn [Str.find_first].
    destruct (String.prefix (String c "") (String a s)) eqn:P.
    + apply prefix_char in P. exists 0. split; [lia|]. split; [exact P|]. lia.
    + assert (Hc : a <> c).
      { intros ->. assert (String.prefix (String c "") (String c s) = true)
          by (by apply prefix_char). congruence. }
      specialize (IH (S k)). destruct (Str.find_first (String c "") s (S k)) as [i|].
      * destruct IH as (n & -> & Hg & Hm). exists (S n). split; [lia|].
        split; [exact Hg|]. intros [|m] Hlt; simpl; [congruence | apply Hm; lia].
      * intros [|n]; simpl; [congruence | apply IH].
Qed.

Lemma find_last_char (c : ascii) (s : string) (k : nat) :
  match Str.find_last (String c "") s k with
  | Some j => exists n, j = k + n /\ String.get n s = Some c
                        /\ forall m, n < m -> String.get m s <> Some c
  | None => forall n, String.get n s <> Some c
  end.
Proof.
  revert k. induction s as [|a s IH]; intros k.
  - simpl. intros n. by destruct n.
  - cbn [Str.find_last]. specialize (IH (S k)).
    destruct (Str.find_last (String c "") s (S k)) as [j|].
    + destruct IH as (n & -> & Hg & Hm). exists (S n). split; [lia|].
      split; [exact Hg|]. intros [|m] Hlt; [lia|]. simpl. apply Hm. lia.
    + destruct (String.prefix (String c "") (String a s)) eqn:P.
      * apply prefix_char in P. exists 0. split; [lia|]. split; [exact P|].
        intros [|m] Hlt; [lia|]. simpl. apply IH.
      * assert (Hc : a <> c).
        { intros ->. assert (String.prefix (String c "") (String c s) = true)
            by (by apply prefix_char). congruence. }
        intros [|n]; simpl; [congruence | apply IH].
Qed.

(** X8. The [catch] block of [geminiGenerateJson] in
    [src/server/server.js], on a text: when some opening brace of the text
    comes before some closing brace, the span it parses runs from the
    first opening brace of the text to its last closing brace, both
    included; otherwise, and only then, it throws "Model did not return
    JSON". *)
Theorem brace_span_first_to_last (text : string) :
  ((exists i j, i < j /\ String.get i text = Some "{"%char
                /\ String.get j text = Some "}"%char) ->
     exists i j,
       i < j
       /\ String.get i text = Some "{"%char
       /\ (forall m, m < i -> String.get m text <> Some "{"%char)
       /\ String.get j text = Some "}"%char
       /\ (forall m, j < m -> String.get m text <> Some "}"%char)
       /\ brace_span (JStr text) = inr (JStr (String.substring i (j + 1 - i) text)))
  /\ (~ (exists i j, i < j /\ String.get i text = Some "{"%char
                     /\ String.get j text = Some "}"%char) ->
      brace_span (JStr text) = inl (Error "Model did not return JSON")).
Proof.
  rewrite brace_span_string. unfold Spec.brace_substring.
  pose proof (find_first_char "{" text 0) as Hf.
  pose proof (find_last_char "}" text 0) as Hl.
  destruct (Str.find_first "{" text 0) as [i|];
    destruct (Str.find_last "}" text 0) as [j|].
  - destruct Hf as (n & -> & Hgi & Hmi). destruct Hl as (n' & -> & Hgj & Hmj).
    simpl. destruct (Nat.ltb_spec n n') as [Hlt|Hge]; split.
    + intros _. exists n, n'. repeat split; assumption.
    + intros N. destruct N. by exists n, n'.
    + intros (i & j & Hij & Hi & Hj). exfalso.
      assert (n <= i) by (destruct (Nat.le_gt_cases n i); [done|]; by destruct (Hmi i)).
      assert (j <= n') by (destruct (Nat.le_gt_cases j n'); [done|]; by destruct (Hmj j)).
      lia.
    + reflexivity.
  - split; [|reflexivity]. intros (i' & j & _ & _ & Hj). by destruct (Hl j).
  - split; [|reflexivity]. intros (i & j' & _ & Hi & _). by destruct (Hf i).
  - split; [|reflexivity]. intros (i & j' & _ & Hi & _). by destruct (Hf i).
Qed.

Lemma brace_span_first_to_last_witness :
  brace_span (JStr "ok {a} and {b} done") = inr (JStr "{a} and {b}").
Proof.
  destruct (proj1 (brace_span_first_to_last "ok {a} and {b} done"))
    as (i & j & Hij & Hi & Hfirst & Hj & Hlast & E).
  { exists 3, 5. split; [lia|]. split; reflexivity. }
  reflexivity.
Defined.

(** ** The client's hints and buttons *)

Section CompareFacts.

Local Open Scope float_scope.

Lemma SFcompare_Eq_inv (a b : spec_float) :
  SFcompare a b = Some Eq ->
  a = b \/ exists s t, a = S754_zero s /\ b = S754_zero t.
Proof.
  destruct a as [sa|sa| |sa ma ea], b as [sb|sb| |sb mb eb]; simpl;
    try destruct sa; try destruct sb; intros E;
    try discriminate E; eauto.
  - destruct (Z.compare_spec ea eb) as [->| |]; try discriminate E.
    change (Pos.compare_cont Eq ma mb) with (Pos.compare ma mb) in E.
    destruct (Pos.compare_spec ma mb) as [->| |]; try discriminate E. by left.
  - destruct (Z.compare_spec ea eb) as [->| |]; try discriminate E.
    change (Pos.compare_cont Eq ma mb) with (Pos.compare ma mb) in E.
    destruct (Pos.compare_spec ma mb) as [->| |]; try discriminate E. by left.
Qed.

Lemma ltb_eqb_compat (c x y : float) :
  (x =? y) = true -> (c <? x) = (c <? y).
Proof.
  rewrite FloatAxioms.eqb_spec, !FloatAxioms.ltb_spec. unfold SFeqb, SFltb.
  destruct (SFcompare (Prim2SF x) (Prim2SF y)) as [[]|] eqn:E; try discriminate.
  intros _. destruct (SFcompare_Eq_inv _ _ E) as [->|(s & t & -> & ->)];
    [reflexivity|].
  destruct (Prim2SF c) as [sc|sc| |sc mc ec]; reflexivity.
Qed.

End CompareFacts.

Lemma same_percent_exceeds (a b : option float) (cap : float) :
  Spec.same_percent a b -> exceeds a cap = exceeds b cap.
Proof.
  destruct a as [x|], b as [y|]; simpl; try done.
  intros [->|H]; [reflexivity | by apply ltb_eqb_compat].
Qed.

Lemma request_body_caps (st : App.State) (input : Input) :
  AnalyzeSchema_parse (App.request_body st) = inr input ->
  encouragedRefundCapPercent input = 15%float /\ maxRefundCapPercent input = 20%float.
Proof.
  destruct (request_body_props st) as (props & -> & _ & _ & _ & _ & He & Hm).
  intros H. apply parse_fields in H as (_ & _ & _ & _ & He' & Hm').
  rewrite He in He'. rewrite Hm in Hm'.
  change (z.number_default 15 (Some (JNum 15))) with (Some 15%float) in He'.
  change (z.number_default 20 (Some (JNum 20))) with (Some 20%float) in Hm'.
  split; congruence.
Qed.

(** X9. For every form whose refunded-amount text is not empty and whose
    request the schema accepts, the client shows the over-the-cap hint
    exactly when the server's [softCapExceeded] is true for that request:
    the hint's constant 15 and the cap the payload carries agree. *)
Theorem cap_hint_matches_server (st : App.State) (input : Input) :
  App.refundedAmount st <> "" ->
  AnalyzeSchema_parse (App.request_body st) = inr input ->
  (Flow.capWarning st = Some Flow.OverCap <-> softCapExceeded input = true).
Proof.
  intros Hne Hparse.
  destruct (request_body_caps st input Hparse) as [He _].
  destruct (request_body_parsed st input Hparse) as [Ht Hr].
  pose proof (client_server_percent (App.bookingTotal st) (App.refundedAmount st) Hne)
    as Hsame.
  change (App.refundPercent (App.mkState "" "" (App.bookingTotal st)
                                         (App.refundedAmount st) ""))
    with (App.refundPercent st) in Hsame.
  unfold softCapExceeded, refundPercent. rewrite He, Ht, Hr.
  rewrite <- (same_percent_exceeds _ _ 15%float Hsame).
  unfold Flow.capWarning, exceeds.
  destruct (App.refundPercent st) as [p|]; [|split; discriminate].
  destruct (15 <? p)%float; [done|].
  split; [|discriminate]. by destruct (12 <=? p)%float.
Qed.

Lemma cap_hint_matches_server_witness :
  let st := Sample.form "560" "85.06" in
  Flow.capWarning st = Some Flow.OverCap
  /\ exists input,
      AnalyzeSchema_parse (App.request_body st) = inr input
      /\ softCapExceeded input = true.
Proof.
  intros st.
  assert (H : exists input, AnalyzeSchema_parse (App.request_body st) = inr input)
    by (vm_compute; eexists; reflexivity).
  destruct H as [input H].
  assert (Hne : App.refundedAmount st <> "") by discriminate.
  assert (Hc : Flow.capWarning st = Some Flow.OverCap) by (vm_compute; reflexivity).
  split; [exact Hc|]. exists input. split; [exact H|].
  exact (proj1 (cap_hint_matches_server st input Hne H) Hc).
Defined.

Lemma drop_spaces_nil (l : list ascii) :
  StringToNumber.drop_spaces l = [] <-> forallb StringToNumber.is_space l = true.
Proof.
  induction l as [|c l IH]; simpl; [done|].
  destruct (StringToNumber.is_space c); simpl; [exact IH|]. split; discriminate.
Qed.

Lemma drop_spaces_head (l : list ascii) :
  match StringToNumber.drop_spaces l with
  | [] => True
  | c :: _ => StringToNumber.is_space c = false
  end.
Proof.
  induction l as [|c l IH]; simpl; [done|].
  by destruct (StringToNumber.is_space c) eqn:E.
Qed.

Lemma trim_nil (l : list ascii) :
  StringToNumber.trim l = [] <-> forallb StringToNumber.is_space l = true.
Proof.
  unfold StringToNumber.trim. split.
  - intros H. apply (f_equal (@rev ascii)) in H. rewrite rev_involutive in H.
    simpl in H. apply drop_spaces_nil in H.
    pose proof (drop_spaces_head l) as Hh.
    destruct (StringToNumber.drop_spaces l) as [|c r] eqn:E;
      [by apply drop_spaces_nil|].
    rewrite forallb_forall in H. rewrite (H c) in Hh; [discriminate|].
    apply in_rev. rewrite rev_involutive. by left.
  - intros H. apply drop_spaces_nil in H. by rewrite H.
Qed.

(** X10. The Analyze button is disabled exactly when an analysis is
    running or every character of the notes is white space (empty notes
    included); the length of the notes is not looked at. *)
Theorem analyze_disabled_iff (loading : bool) (st : App.State) :
  Flow.analyzeDisabled loading st = true
  <-> loading = true
      \/ forallb StringToNumber.is_space (list_ascii_of_string (App.rawNotes st)) = true.
Proof.
  unfold Flow.analyzeDisabled, Text.trim.
  rewrite orb_true_iff, String.eqb_eq, <- trim_nil.
  split; (intros [H|H]; [by left|right]).
  - apply (f_equal list_ascii_of_string) in H.
    by rewrite list_ascii_of_string_of_list_ascii in H.
  - by rewrite H.
Qed.

(** X11. Notes shorter than 10 characters are refused by the server with
    status 400 and without a request to the engine, whatever the rest of
    the form holds; the client does not check this length, so this
    includes forms whose Analyze button is enabled. *)
Theorem short_notes_pass_the_button
    (fetch : string -> FetchResult) (JSON_parse : JSON -> Exn + JSON)
    (buildPrompt : Input -> string) (library_message : Exn -> string)
    (st : App.State) :
  String.length (App.rawNotes st) < 10 ->
  exists response,
    Part001.analyze fetch JSON_parse buildPrompt library_message (App.request_body st)
    = (response, [])
    /\ Spec.error_response response.
Proof.
  intros Hlen.
  destruct (request_body_props st) as (props & Hb & Hn & _).
  assert (Hrej : Spec.short_notes_or_empty_issue (App.request_body st)).
  { left. exists (App.rawNotes st). rewrite Hb. by split. }
  destruct (rejected_request_fails_validation _ Hrej) as [issues E].
  eexists. unfold Part001.analyze. rewrite (Part001_invalid _ _ _ _ _ E).
  split; [reflexivity | apply (respond_error _ _ [])].
Qed.

Lemma short_notes_pass_the_button_witness :
  let st := App.mkState "too short" "Refund" "100" "25" "" in
  Flow.analyzeDisabled false st = false
  /\ exists response,
      Part001.analyze (Sample.engine "{}") ES_JSON_parse Part001_buildPrompt
                      Sample.library_message (App.request_body st) = (response, [])
      /\ Spec.error_response response.
Proof.
  intros st. split; [reflexivity|].
  apply (short_notes_pass_the_button (Sample.engine "{}") ES_JSON_parse
           Part001_buildPrompt Sample.library_message st).
  simpl. lia.
Defined.

(** ** The instruction builder *)

Lemma append_cons (a : ascii) (s t : string) : String a s ++ t = String a (s ++ t).
Proof. reflexivity. Qed.

Lemma append_assoc (a b c : string) : (a ++ b) ++ c = a ++ (b ++ c).
Proof. induction a as [|x a IH]; [reflexivity|]. by rewrite !append_cons, IH. Qed.

Lemma list_of_append (a b : string) :
  list_ascii_of_string (a ++ b)
  = (list_ascii_of_string a ++ list_ascii_of_string b)%list.
Proof.
  induction a as [|x a IH]; [reflexivity|].
  rewrite append_cons. simpl. by rewrite IH.
Qed.

Lemma string_of_app (a b : list ascii) :
  string_of_list_ascii (a ++ b)%list = string_of_list_ascii a ++ string_of_list_ascii b.
Proof.
  induction a as [|x a IH]; [reflexivity|].
  simpl. by rewrite IH, append_cons.
Qed.

Lemma trim_list_framed (a c d : ascii) (middle : list ascii) :
  StringToNumber.is_space a = true ->
  StringToNumber.is_space c = false ->
  StringToNumber.is_space d = false ->
  StringToNumber.trim (a :: c :: middle ++ [d; a])%list = (c :: middle ++ [d])%list.
Proof.
  intros Ha Hc Hd. unfold StringToNumber.trim.
  cbn [StringToNumber.drop_spaces]. rewrite Ha, Hc.
  replace (rev (c :: middle ++ [d; a])) with (a :: d :: rev middle ++ [c])%list.
  2:{ cbn [rev]. rewrite rev_app_distr. reflexivity. }
  cbn [StringToNumber.drop_spaces]. rewrite Ha, Hd.
  cbn [rev]. rewrite rev_app_distr, rev_involutive. reflexivity.
Qed.

(** Trimming a text that has one line break before a first and after a
    last character that are not white space removes the two line breaks. *)
Lemma trim_framed (c d : ascii) (middle : string) :
  StringToNumber.is_space c = false ->
  StringToNumber.is_space d = false ->
  Text.trim (Prompt.newline ++ String c middle ++ String d "" ++ Prompt.newline)
  = String c middle ++ String d "".
Proof.
  intros Hc Hd. unfold Text.trim.
  replace (list_ascii_of_string
             (Prompt.newline ++ String c middle ++ String d "" ++ Prompt.newline))
    with (ascii_of_nat 10 :: c :: list_ascii_of_string middle
          ++ [d; ascii_of_nat 10])%list.
  2:{ unfold Prompt.newline. rewrite !list_of_append.
      cbn [list_ascii_of_string app]. reflexivity. }
  rewrite (trim_list_framed (ascii_of_nat 10) _ _ _ eq_refl Hc Hd).
  cbn [string_of_list_ascii app]. rewrite string_of_app.
  by rewrite string_of_list_ascii_of_string.
Qed.

Lemma list_of_string_inj (a b : string) :
  list_ascii_of_string a = list_ascii_of_string b -> a = b.
Proof.
  intros H. apply (f_equal string_of_list_ascii) in H.
  by rewrite !string_of_list_ascii_of_string in H.
Qed.

(** Two concatenations are equal when their characters are. *)
Ltac same_text :=
  apply list_of_string_inj;
  unfold Prompt.closing, Prompt.newline;
  repeat (first [rewrite list_of_append
                | progress (cbn [list_ascii_of_string app])]);
  rewrite <- ?app_assoc; cbn [app]; reflexivity.

Lemma trim_template (c : ascii) (rest notes : string) :
  StringToNumber.is_space c = false ->
  Text.trim ((Prompt.newline ++ String c rest) ++ notes
             ++ Prompt.closing ++ Prompt.newline)
  = String c rest ++ notes ++ Prompt.closing.
Proof.
  intros Hc.
  pose proof (trim_framed c JSONText.quote
                (rest ++ notes ++ Prompt.newline
                 ++ String JSONText.quote (String JSONText.quote ""))
                Hc eq_refl) as H.
  replace ((Prompt.newline ++ String c rest) ++ notes
           ++ Prompt.closing ++ Prompt.newline)
    with (Prompt.newline
          ++ String c (rest ++ notes ++ Prompt.newline
                       ++ String JSONText.quote (String JSONText.quote ""))
          ++ String JSONText.quote "" ++ Prompt.newline) by same_text.
  rewrite H. same_text.
Qed.

Lemma Part001_preamble_start (input : Input) :
  exists c rest,
    StringToNumber.is_space c = false
    /\ Part001_preamble input = Prompt.newline ++ String c rest.
Proof. unfold Part001_preamble. eexists _, _. split; cycle 1; reflexivity. Qed.

Lemma ServerJs_preamble_start (input : Input) :
  exists c rest,
    StringToNumber.is_space c = false
    /\ ServerJs_preamble input = Prompt.newline ++ String c rest.
Proof. unfold ServerJs_preamble. eexists _, _. split; cycle 1; reflexivity. Qed.

(** X12. In both server files the prompt ends with the agent's notes,
    embedded as they are (nothing in them is escaped or cut, a run of
    three double quotes included), followed by a line break and three
    double quotes; everything before the notes is the same for two
    requests that differ only in their notes. *)
Theorem buildPrompt_embeds_notes_verbatim (input : Input) (notes : string) :
  let other := mkInput notes (issueType input) (bookingTotal input)
                       (refundedAmount input) (encouragedRefundCapPercent input)
                       (maxRefundCapPercent input) in
  (exists head,
      Part001_buildPrompt input = head ++ rawNotes input ++ Prompt.closing
      /\ Part001_buildPrompt other = head ++ notes ++ Prompt.closing)
  /\ (exists head,
      ServerJs_buildPrompt input = head ++ rawNotes input ++ Prompt.closing
      /\ ServerJs_buildPrompt other = head ++ notes ++ Prompt.closing).
Proof.
  intros other. split.
  - destruct (Part001_preamble_start input) as (c & rest & Hc & E).
    exists (String c rest). unfold Part001_buildPrompt, Part001_template.
    change (Part001_preamble other) with (Part001_preamble input).
    rewrite E, !trim_template by exact Hc. split; reflexivity.
  - destruct (ServerJs_preamble_start input) as (c & rest & Hc & E).
    exists (String c rest). unfold ServerJs_buildPrompt, ServerJs_template.
    change (ServerJs_preamble other) with (ServerJs_preamble input).
    rewrite E, !trim_template by exact Hc. split; reflexivity.
Qed.

(** ** Configuration *)

Lemma substring_all (s : string) : String.substring 0 (String.length s) s = s.
Proof. induction s as [|a s IH]; simpl; [reflexivity | by rewrite IH]. Qed.

Lemma prefix_append (p s : string) : String.prefix p (p ++ s) = true.
Proof.
  induction p as [|a p IH]; [by destruct s|].
  rewrite append_cons. simpl. by destruct (ascii_dec a a).
Qed.

Lemma find_first_here (needle s : string) (k : nat) :
  String.prefix needle s = true -> Str.find_first needle s k = Some k.
Proof. intros H. destruct s; cbn [Str.find_first]; by rewrite H. Qed.

Lemma length_append (p s : string) :
  String.length (p ++ s) = String.length p + String.length s.
Proof.
  induction p as [|a p IH]; [reflexivity|]. rewrite append_cons. simpl. by rewrite IH.
Qed.

Lemma substring_after (p s : string) :
  String.substring (String.length p) (String.length s) (p ++ s) = s.
Proof.
  induction p as [|a p IH]; [apply substring_all|]. rewrite append_cons. exact IH.
Qed.

Lemma substring_none (s : string) : String.substring 0 0 s = "".
Proof. by destruct s. Qed.

Lemma remove_first_prefix (p s : string) : Text.remove_first (p ++ s) p = s.
Proof.
  unfold Text.remove_first. rewrite (find_first_here _ _ _ (prefix_append p s)).
  rewrite substring_none, length_append. cbn [Nat.add].
  replace (String.length p + String.length s - String.length p)
    with (String.length s) by lia.
  by rewrite substring_after.
Qed.

(** X13. The model name: a configured name that starts with "models/"
    loses that prefix once (what follows it is kept as it is), any other
    non-empty name is used unchanged, and with no name or an empty one the
    model is "gemini-1.5-flash". *)
Theorem MODEL_normalized :
  (forall name, Config.MODEL (Some ("models/" ++ name)) = name)
  /\ (forall name, name <> "" -> String.prefix "models/" name = false ->
        Config.MODEL (Some name) = name)
  /\ Config.MODEL None = "gemini-1.5-flash"
  /\ Config.MODEL (Some "") = "gemini-1.5-flash".
Proof.
  split; [|split; [|split; reflexivity]].
  - intros name. unfold Config.MODEL, Config.RAW_MODEL, Text.or_default.
    replace (String.eqb ("models/" ++ name) "") with false by reflexivity.
    by rewrite prefix_append, remove_first_prefix.
  - intros name Hne Hp. unfold Config.MODEL, Config.RAW_MODEL, Text.or_default.
    apply String.eqb_neq in Hne. by rewrite Hne, Hp.
Qed.

(** X14. The CORS origin check of [src/unnamed/part_001] lets a request
    through exactly when it has no origin (or an empty one), when its
    origin is "http://localhost:5173", or when its origin is the
    configured, non-empty FRONTEND_URL; any other origin is refused with an
    error, never answered with [false]. *)
Theorem cors_allows_iff (FRONTEND_URL origin : option string) :
  (Config.corsOrigin FRONTEND_URL origin = inr true
   <-> origin = None \/ origin = Some ""
       \/ origin = Some "http://localhost:5173"
       \/ exists o, o <> "" /\ origin = Some o /\ FRONTEND_URL = Some o)
  /\ (forall answer, Config.corsOrigin FRONTEND_URL origin = inr answer -> answer = true).
Proof.
  unfold Config.corsOrigin, Config.allowedOrigins, Config.includes.
  destruct origin as [o|]; [|split; [split; eauto|by intros ? [= <-]]].
  destruct (String.eqb_spec o "") as [->|Hne];
    [split; [split; eauto|by intros ? [= <-]]|].
  cbn [existsb].
  destruct (String.eqb_spec o "http://localhost:5173") as [->|Hl]; cbn [orb];
    [split; [split; eauto|by intros ? [= <-]]|].
  destruct FRONTEND_URL as [url|]; cbn [existsb].
  - destruct (String.eqb_spec url "") as [->|Hu]; cbn [existsb orb].
    + split; [|discriminate]. split; [discriminate|].
      intros [H|[H|[H|(o' & Ho' & [= <-] & [= E])]]]; try discriminate; congruence.
    + destruct (String.eqb_spec o url) as [->|Hou]; cbn [orb].
      * split; [|by intros ? [= <-]]. split; [|done].
        intros _. right. right. right. by exists url.
      * split; [|discriminate]. split; [discriminate|].
        intros [H|[H|[H|(o' & Ho' & [= <-] & [= E])]]]; try discriminate; congruence.
  - split; [|discriminate]. split; [discriminate|].
    intros [H|[H|[H|(o' & Ho' & [= <-] & E)]]]; try discriminate; congruence.
Qed.

(** ** The client's analysis flow *)

Section FlowFacts.

Variable post : JSON -> Flow.PostResult.
Variable addDoc : App.AuditRecord -> Exn + unit.
Variable library_message : Exn -> string.

(** X15. When the analysis request does not come back as a readable
    success (the request is rejected, the response is not ok, or its body
    is not JSON), [handleAnalyze] sends nothing to the audit store, shows
    no result, shows the failure in the status and stops loading; for a
    response that is not ok and has a non-empty body that could be read,
    the status message is that body. *)
Theorem failed_analysis_is_not_audited (st : App.State) :
  (exists e, post (App.payload st) = Flow.PostRejected e)
  \/ (exists r, post (App.payload st) = Flow.PostReply r
                /\ (Flow.reply_ok r = false
                    \/ exists e, Flow.reply_json r = inl e)) ->
  let '(view, calls) := Flow.handleAnalyze post addDoc library_message st in
  calls = [Flow.Posted (App.payload st)]
  /\ Flow.result view = None
  /\ Flow.loading view = false
  /\ (exists m, Flow.saveStatus view = Flow.Failed m)
  /\ (forall r text,
        post (App.payload st) = Flow.PostReply r -> Flow.reply_ok r = false ->
        Flow.reply_text r = inr text -> text <> "" ->
        Flow.saveStatus view = Flow.Failed text).
Proof.
  unfold Flow.handleAnalyze.
  intros [[e E]|(r & E & H)]; rewrite E.
  - repeat split; eauto. intros r text [=].
  - destruct (Flow.reply_ok r) eqn:Ok; cbn [negb].
    + destruct H as [H|[e H]]; [discriminate|]. rewrite H.
      repeat split; eauto. intros r' text [= <-] Hok. congruence.
    + destruct (Flow.reply_text r) as [e|text] eqn:T.
      * repeat split; eauto. intros r' text [= <-] _ T'. congruence.
      * repeat split; eauto. intros r' text' [= <-] _.
        rewrite T. intros [= <-] Hne. unfold Flow.caught. simpl.
        apply String.eqb_neq in Hne. by rewrite Hne.
Qed.

(** X16. When the analysis request comes back as a success with a JSON
    body other than [null], [handleAnalyze] shows that body as the result
    and gives the audit store one document, after the analysis request;
    the result stays shown whether or not the document is saved, the
    status showing the store's error when it is not, and the component
    stops loading either way. *)
Theorem audit_failure_keeps_result (st : App.State) (r : Flow.Reply) (data : JSON) :
  post (App.payload st) = Flow.PostReply r ->
  Flow.reply_ok r = true ->
  Flow.reply_json r = inr data ->
  data <> JNull ->
  exists record,
    App.auditRecord st data = inr record
    /\ let '(view, calls) := Flow.handleAnalyze post addDoc library_message st in
       calls = [Flow.Posted (App.payload st); Flow.AuditWrite record]
       /\ Flow.result view = Some data
       /\ Flow.loading view = false
       /\ Flow.saveStatus view
          = match addDoc record with
            | inr _ => Flow.Saved
            | inl e => Flow.Failed (message library_message e)
            end.
Proof.
  intros E Ok J Hnn. unfold Flow.handleAnalyze. rewrite E, Ok, J. cbn [negb].
  assert (Hs : Flow.shown data = Some data) by (by destruct data).
  destruct (App.auditRecord st data) as [e|record] eqn:A.
  { by destruct data. }
  exists record. split; [reflexivity|].
  destruct (addDoc record) as [e|[]]; simpl; rewrite Hs; repeat split.
Qed.

End FlowFacts.

Lemma failed_analysis_is_not_audited_witness :
  let post := fun _ : JSON =>
    Flow.PostReply (Flow.mkReply false 400 (inr "rawNotes is too short") (inl (SyntaxError ""))) in
  let outcome :=
    Flow.handleAnalyze post (fun _ => inr tt) Sample.library_message
                       (Sample.form "560" "85.06") in
  Flow.saveStatus outcome.1 = Flow.Failed "rawNotes is too short"
  /\ outcome.2 = [Flow.Posted (App.payload (Sample.form "560" "85.06"))].
Proof.
  intros post outcome.
  pose proof (failed_analysis_is_not_audited post (fun _ => inr tt)
                Sample.library_message (Sample.form "560" "85.06")) as H.
  fold outcome in H. destruct outcome as [view calls].
  destruct H as (Hc & _ & _ & _ & Hm).
  { right. eexists. split; [reflexivity|]. by left. }
  split; [|exact Hc].
  apply (Hm _ "rawNotes is too short" eq_refl eq_refl eq_refl). discriminate.
Defined.

Lemma audit_failure_keeps_result_witness :
  let data := JObj {["risk_score" := JNum 72]} in
  let post := fun _ : JSON => Flow.PostReply (Flow.mkReply true 200 (inr "") (inr data)) in
  let addDoc := fun _ : App.AuditRecord => @inl Exn unit (Error "permission denied") in
  let outcome :=
    Flow.handleAnalyze post addDoc Sample.library_message (Sample.form "560" "85.06") in
  Flow.result outcome.1 = Some data
  /\ Flow.saveStatus outcome.1 = Flow.Failed "permission denied".
Proof.
  intros data post addDoc outcome.
  destruct (audit_failure_keeps_result post addDoc Sample.library_message
              (Sample.form "560" "85.06") _ data eq_refl eq_refl eq_refl)
    as (record & A & H); [discriminate|].
  fold outcome in H. destruct outcome as [view calls].
  destruct H as (_ & Hr & _ & Hs). split; [exact Hr|].
  cbn [fst]. rewrite Hs. reflexivity.
Defined.

(** ** Caps, revisions and the audit record *)

Lemma SFleb_ltb_trans (a b c : spec_float) :
  SFleb a b = true -> SFltb b c = true -> SFltb a c = true.
Proof.
  unfold SFleb, SFltb.
  destruct a as [sa|sa| |sa ma ea], b as [sb|sb| |sb mb eb], c as [sc|sc| |sc mc ec];
    simpl; try destruct sa; try destruct sb; try destruct sc; simpl;
    try discriminate; try reflexivity; try (intros; discriminate).
  all: change (Pos.compare_cont Eq ?x ?y) with (Pos.compare x y).
  all: destruct (Z.compare_spec ea eb) as [->| |]; simpl; try discriminate;
       destruct (Z.compare_spec eb ec) as [->| |]; simpl; try discriminate;
       try (destruct (Z.compare_spec ea ec) as [->| |]; simpl; try reflexivity; try lia).
  all: try (destruct (Z.compare_spec eb eb); try lia).
  all: repeat match goal with
       | |- context [Pos.compare ?x ?y] => destruct (Pos.compare_spec x y); subst; simpl
       end; try discriminate; try reflexivity; try lia.
Qed.

(** X17. When the encouraged cap is not above the maximum cap (as with
    the defaults 15 and 20), a request that exceeds the maximum cap also
    exceeds the encouraged cap: the policy block never reports a hard-cap
    excess without the soft-cap excess. *)
Theorem hard_cap_implies_soft_cap (input : Input) :
  (encouragedRefundCapPercent input <=? maxRefundCapPercent input)%float = true ->
  hardCapExceeded input = true -> softCapExceeded input = true.
Proof.
  unfold hardCapExceeded, softCapExceeded, exceeds.
  destruct (refundPercent input) as [p|]; [|done].
  rewrite FloatAxioms.leb_spec, !FloatAxioms.ltb_spec. apply SFleb_ltb_trans.
Qed.

Lemma hard_cap_implies_soft_cap_witness :
  hardCapExceeded Sample.input = true /\ softCapExceeded Sample.input = true.
Proof.
  assert (H : hardCapExceeded Sample.input = true) by reflexivity.
  split; [exact H|].
  exact (hard_cap_implies_soft_cap Sample.input eq_refl H).
Defined.

(** X18. The engine client of [src/server/server.js] accepts every
    engine answer that the one of [src/unnamed/part_001] accepts, with the
    same data and the same single request: the brace fallback only adds
    answers, it changes none. *)
Theorem fallback_only_adds_answers
    (fetch : string -> FetchResult) (JSON_parse : JSON -> Exn + JSON)
    (prompt : string) (data : JSON) (sent : list string) :
  Part001.geminiGenerateJson fetch JSON_parse prompt = (inr data, sent) ->
  ServerJs.geminiGenerateJson fetch JSON_parse prompt = (inr data, sent).
Proof.
  unfold Part001.geminiGenerateJson, ServerJs.geminiGenerateJson.
  destruct (generateText fetch JSON_parse prompt) as [[e|text] s]; simpl;
    [discriminate|].
  unfold Part001.parseModelText, ServerJs.parseModelText.
  destruct (JSON_parse text) as [e|v]; [discriminate|]. done.
Qed.

Lemma fallback_only_adds_answers_witness :
  ServerJs.geminiGenerateJson (Sample.engine "[]") ES_JSON_parse "prompt"
  = (inr (JArr []), ["prompt"]).
Proof.
  apply (fallback_only_adds_answers (Sample.engine "[]") ES_JSON_parse "prompt").
  vm_compute. reflexivity.
Defined.

Lemma toNumber_received (text : string) :
  text <> "" -> same_number (App.toNumber text) (Spec.received text).
Proof.
  intros Hne. apply String.eqb_neq in Hne.
  rewrite received_spec, Hne. unfold App.toNumber, same_number. cbn zeta.
  destruct (PrimFloat.is_finite (StringToNumber.Number text)); [|exact I].
  destruct (StringToNumber.Number text =? 0)%float; [right|left]; done.
Qed.

Lemma auditRecord_numbers (st : App.State) (data : JSON) (record : App.AuditRecord) :
  App.auditRecord st data = inr record ->
  App.audit_bookingTotal record = App.toNumber (App.bookingTotal st)
  /\ App.audit_refundedAmount record = App.toNumber (App.refundedAmount st).
Proof. destruct data; simpl; try discriminate; by intros [= <-]. Qed.

(** X19. The numbers of the audit record against the numbers of the
    request the server validated: for a booking-total or refunded-amount
    text that is not empty, the audit record holds the number the server
    received (a zero of either sign counting as zero), or null when the
    server received null; for an empty text the audit record holds 0
    although the server received null. *)
Theorem audit_numbers_against_request
    (st : App.State) (input : Input) (data : JSON) (record : App.AuditRecord) :
  AnalyzeSchema_parse (App.request_body st) = inr input ->
  App.auditRecord st data = inr record ->
  (App.bookingTotal st <> "" ->
     same_number (App.audit_bookingTotal record) (bookingTotal input))
  /\ (App.refundedAmount st <> "" ->
     same_number (App.audit_refundedAmount record) (refundedAmount input))
  /\ (App.bookingTotal st = "" ->
     App.audit_bookingTotal record = Num 0 /\ bookingTotal input = NumNull)
  /\ (App.refundedAmount st = "" ->
     App.audit_refundedAmount record = Num 0 /\ refundedAmount input = NumNull).
Proof.
  intros Hp Ha.
  destruct (request_body_parsed st input Hp) as [-> ->].
  destruct (auditRecord_numbers st data record Ha) as [-> ->].
  repeat split; try (apply toNumber_received; assumption);
    match goal with H : _ = "" |- _ => rewrite H end; reflexivity.
Qed.

Lemma audit_numbers_against_request_witness :
  let st := Sample.form "560" "" in
  exists input record,
    AnalyzeSchema_parse (App.request_body st) = inr input
    /\ App.auditRecord st (JObj ∅) = inr record
    /\ same_number (App.audit_bookingTotal record) (bookingTotal input)
    /\ App.audit_refundedAmount record = Num 0
    /\ refundedAmount input = NumNull.
Proof.
  intros st.
  assert (H : exists input, AnalyzeSchema_parse (App.request_body st) = inr input)
    by (vm_compute; eexists; reflexivity).
  destruct H as [input H].
  exists input. eexists. split; [exact H|]. split; [reflexivity|].
  destruct (audit_numbers_against_request st input (JObj ∅) _ H eq_refl)
    as (H1 & _ & _ & H4).
  split; [apply H1; discriminate|]. apply H4. reflexivity.
Defined.
